(** * Visual embeddings store and similarity search

    A shallow embedding of the two scripts of the repository,
    [scripts/visual-search.py] and [scripts/generate-visual-embeddings.py],
    followed by the properties of the embedding store and of the ranking
    engine stated against that embedding.

    Python floats are IEEE 754 binary64 values; they are modelled by the
    axiom-free [spec_float] of the standard library at precision 53.
    Exceptions are modelled by a small error monad. *)

From Stdlib Require Import ZArith List String Ascii Bool Lia.
From Stdlib Require Import Sorted Permutation DecimalString DecimalNat.
From Stdlib Require Import Floats.SpecFloat.
Import ListNotations.

Local Open Scope string_scope.
Local Open Scope list_scope.

(** ** Python exceptions and the error monad *)

Module Py.

(** The exception classes that the modelled statements can raise. *)
Inductive exn : Type :=
| KeyError (key : string)
    (* [d[key]] on a dict without [key] *)
| ValueError_shapes (n m : nat)
    (* [np.dot] on one-dimensional arrays of lengths [n] and [m] *)
| JSONDecodeError (msg : string) (lineno colno pos : nat)
    (* [json.load] on a text that is not a JSON document *)
| External (msg : string).
    (* raised inside a collaborator: PIL, pdf2image, the CLIP model *)

Inductive result (A : Type) : Type :=
| Ok (a : A)
| Raise (e : exn).
Arguments Ok {A} a.
Arguments Raise {A} e.

Definition bind {A B : Type} (r : result A) (k : A -> result B) : result B :=
  match r with
  | Ok a => k a
  | Raise e => Raise e
  end.

(** A [for] loop whose body may raise: the first exception aborts the loop. *)
Fixpoint for_each {A B : Type} (body : A -> result B) (l : list A)
  : result (list B) :=
  match l with
  | [] => Ok []
  | x :: t =>
      bind (body x) (fun y => bind (for_each body t) (fun ys => Ok (y :: ys)))
  end.

Definition nat_str (n : nat) : string := NilZero.string_of_uint (Nat.to_uint n).

(** [str(e)], the text that the handler of [visual-search.py] prints. *)
Definition str (e : exn) : string :=
  match e with
  | KeyError key => "'" ++ key ++ "'"
  | ValueError_shapes n m =>
      "shapes (" ++ nat_str n ++ ",) and (" ++ nat_str m ++ ",) not aligned: "
        ++ nat_str n ++ " (dim 0) != " ++ nat_str m ++ " (dim 0)"
  | JSONDecodeError msg lineno colno pos =>
      msg ++ ": line " ++ nat_str lineno ++ " column " ++ nat_str colno
        ++ " (char " ++ nat_str pos ++ ")"
  | External msg => msg
  end.

End Py.

Import Py.

Notation "x <- c1 ;; c2" := (Py.bind c1 (fun x => c2))
  (at level 61, c1 at next level, right associativity).

(** ** Binary64 floats *)

Module F64.

Definition prec : Z := 53.
Definition emax : Z := 1024.

Definition float : Type := spec_float.

Definition add : float -> float -> float := SFadd prec emax.
Definition mul : float -> float -> float := SFmul prec emax.
Definition div : float -> float -> float := SFdiv prec emax.
Definition sqrt : float -> float := SFsqrt prec emax.
Definition ltb : float -> float -> bool := SFltb.
Definition leb : float -> float -> bool := SFleb.
Definition eqb : float -> float -> bool := SFeqb.

Definition zero : float := S754_zero false.
Definition one : float := S754_finite false 4503599627370496 (-52).
Definition nan : float := S754_nan.
Definition neg_infinity : float := S754_infinity true.

Definition is_nan (x : float) : bool :=
  match x with S754_nan => true | _ => false end.

Definition is_zero (x : float) : bool :=
  match x with S754_zero _ => true | _ => false end.

Definition is_finite (x : float) : bool :=
  match x with S754_zero _ | S754_finite _ _ _ => true | _ => false end.

Definition zero_or_nan (x : float) : Prop :=
  is_zero x = true \/ is_nan x = true.

End F64.

Abbreviation float := F64.float.

(** ** The numeric kernel: [np.dot], [np.linalg.norm]  *)

Definition vector : Type := list float.

(** The accumulation of [np.dot] on two arrays of the same length, at double
    precision.  The order of the additions is left to right; none of the
    results below depends on that order. *)
Definition dot_kernel (a b : vector) : float :=
  fold_left (fun acc xy => F64.add acc (F64.mul (fst xy) (snd xy)))
            (combine a b) F64.zero.

(** [np.dot(a, b)] on one-dimensional arrays: a shape error when the lengths
    differ. *)
Definition np_dot (a b : vector) : result float :=
  if Nat.eqb (List.length a) (List.length b) then Ok (dot_kernel a b)
  else Raise (ValueError_shapes (List.length a) (List.length b)).

(** [np.linalg.norm(x)] on a one-dimensional array: [sqrt(dot(x, x))].
    The sum is accumulated from the left in binary64; NumPy takes the norm
    of the query in the float32 of the model and may sum in another order,
    so the value can differ in its last places.  The properties below use
    the norm only through its being zero, finite or NaN. *)
Definition np_norm (x : vector) : float := F64.sqrt (dot_kernel x x).

(** [cosine_similarity] of [visual-search.py].  The division is NumPy's
    scalar division: on a zero divisor it yields an infinity or NaN and a
    warning, never an exception. *)
Definition cosine_similarity (a b : vector) : result float :=
  d <- np_dot a b ;;
  Ok (F64.div d (F64.mul (np_norm a) (np_norm b))).

(** ** The data model of the persisted artifact

    The records that [generate-visual-embeddings.py] builds and that
    [visual-search.py] reads back. *)

Record page : Type := {
  page_number : Z;
  image_path : string;
  embedding : vector
}.

Record catalog : Type := {
  name : string;
  source_file : string;
  pages : list page
}.

Record database : Type := {
  version : string;
  model : string;
  created : string;
  catalogs : list catalog
}.

Definition total_pages (cats : list catalog) : nat :=
  list_sum (map (fun c => List.length (pages c)) cats).

(** ** [list.sort(key=..., reverse=True)] and slicing

    [list.sort] is a stable sort that compares keys with [<] only.  With
    [reverse=True] CPython reverses the list, sorts it stably in ascending
    order and reverses it again, so equal keys keep their original order.
    The ascending sort is modelled by insertion; on keys without NaN, [<] is
    a strict weak order and every stable sort returns the same list.  On keys
    with NaN the outcome of CPython's merge strategy is not reproduced beyond
    lists of two elements. *)

Section Sort.

Context {A : Type}.
Variable key : A -> float.

Fixpoint insert (x : A) (l : list A) : list A :=
  match l with
  | [] => [x]
  | y :: t => if F64.ltb (key x) (key y) then x :: y :: t else y :: insert x t
  end.

Definition stable_sort (l : list A) : list A :=
  fold_left (fun acc x => insert x acc) l [].

Definition list_sort_reverse (l : list A) : list A :=
  rev (stable_sort (rev l)).

End Sort.

(** [l[:k]] for a Python integer [k]; a negative [k] counts from the end. *)
Definition slice_to {A : Type} (l : list A) (k : Z) : list A :=
  if (0 <=? k)%Z then firstn (Z.to_nat k) l
  else firstn (List.length l - Z.to_nat (- k)) l.

(** ** [visual-search.py] *)

(** One entry of [results]. *)
Record Match : Type := {
  m_catalog : string;
  m_page_number : Z;
  m_image_path : string;
  m_similarity : float;
  m_source_file : string
}.

(** The body of the inner loop, lines 82-89. *)
Definition score_page (query_embedding : vector) (c : catalog) (p : page)
  : result Match :=
  similarity <- cosine_similarity query_embedding (embedding p) ;;
  Ok {| m_catalog := name c;
        m_page_number := page_number p;
        m_image_path := image_path p;
        m_similarity := similarity;
        m_source_file := source_file c |}.

(** The two nested loops, lines 78-89: every page of every catalog, in the
    order of the database. *)
Definition scan (query_embedding : vector) (cats : list catalog)
  : result (list Match) :=
  per_catalog <-
    for_each (fun c => for_each (score_page query_embedding c) (pages c)) cats ;;
  Ok (List.concat per_catalog).

(** Lines 78-102: scan, sort by similarity with the highest first, keep the
    first [top_k]; the pair is [total_pages_searched] and [results]. *)
Definition search_catalogs (cats : list catalog) (query_embedding : vector)
  (top_k : Z) : result (nat * list Match) :=
  results <- scan query_embedding cats ;;
  Ok (List.length results,
      slice_to (list_sort_reverse m_similarity results) top_k).

(** The ranking engine on a loaded database: the [results] of the search. *)
Definition rank (db : database) (query_embedding : vector) (top_k : Z)
  : result (list Match) :=
  r <- search_catalogs (catalogs db) query_embedding top_k ;;
  Ok (snd r).

(** What [json.load] returns for the artifact: a dict in which each of the
    top-level keys may be absent.  The catalogs and their pages are taken at
    the types at which the generator writes them, with every key present.
    Documents of any other shape are covered by [raw_main] below, of which
    [main] is the restriction to these artifacts. *)
Record artifact : Type := {
  a_version : option string;
  a_model : option string;
  a_created : option string;
  a_catalogs : option (list catalog)
}.

Definition artifact_of (db : database) : artifact :=
  {| a_version := Some (version db);
     a_model := Some (model db);
     a_created := Some (created db);
     a_catalogs := Some (catalogs db) |}.

(** The state of [EMBEDDINGS_FILE] on disk. *)
Inductive file : Type :=
| Absent
| Not_json (msg : string) (lineno colno pos : nat)
| Document (a : artifact).

Definition os_path_exists (f : file) : bool :=
  match f with Absent => false | _ => true end.

Definition json_load (f : file) : result artifact :=
  match f with
  | Document a => Ok a
  | Not_json msg lineno colno pos => Raise (JSONDecodeError msg lineno colno pos)
  | Absent => Raise (External "[Errno 2] No such file or directory")
      (* [open] on a missing file; [main] checks [os.path.exists] before *)
  end.

(** [db['catalogs']] *)
Definition getitem_catalogs (a : artifact) : result (list catalog) :=
  match a_catalogs a with
  | Some cats => Ok cats
  | None => Raise (KeyError "catalogs")
  end.

(** The single document printed on standard output. *)
Inductive output : Type :=
| Success (total_pages_searched : nat) (results : list Match)
| Error (msg : string).

Definition NOT_FOUND_MESSAGE : string :=
  "Visual embeddings database not found. Run generate-visual-embeddings.py first.".

(** Lines 73-102, inside the [try]. *)
Definition search (f : file) (query_embedding : vector) (top_k : Z)
  : result (nat * list Match) :=
  db <- json_load f ;;
  cats <- getitem_catalogs db ;;
  search_catalogs cats query_embedding top_k.

(** [main] from line 53 on.  [query] is the outcome of lines 61-71 (loading
    the image and encoding it with the CLIP model), which run before the
    database is opened.  The second component is the exit status. *)
Definition main (f : file) (query : result vector) (top_k : Z) : output * Z :=
  if negb (os_path_exists f) then (Error NOT_FOUND_MESSAGE, 1%Z)
  else
    match (query_embedding <- query ;; search f query_embedding top_k) with
    | Ok (n, top_results) => (Success n top_results, 0%Z)
    | Raise e => (Error (str e), 1%Z)
    end.

(** ** [generate-visual-embeddings.py] *)

(** *** Strings and paths *)

(** [s.replace(".pdf", empty)]: every occurrence, scanning from the left.
    [skip] counts the characters of a match that remain to be dropped. *)
Fixpoint remove_dot_pdf_from (skip : nat) (s : string) : string :=
  match s with
  | EmptyString => EmptyString
  | String c t =>
      match skip with
      | S k => remove_dot_pdf_from k t
      | O =>
          if String.prefix ".pdf" s then remove_dot_pdf_from 3 t
          else String c (remove_dot_pdf_from 0 t)
      end
  end.

Definition remove_dot_pdf (s : string) : string := remove_dot_pdf_from 0 s.

(** [s.split("-", 1)[1]] when ["-" in s]. *)
Fixpoint after_first_dash (s : string) : option string :=
  match s with
  | EmptyString => None
  | String c t => if Ascii.eqb c "-" then Some t else after_first_dash t
  end.

(** Line 71. *)
Definition catalog_name_of (pdf_name : string) : string :=
  match after_first_dash pdf_name with
  | Some rest => remove_dot_pdf rest
  | None => remove_dot_pdf pdf_name
  end.

Fixpoint basename_from (acc s : string) : string :=
  match s with
  | EmptyString => acc
  | String c t =>
      if Ascii.eqb c "/" then basename_from EmptyString t
      else basename_from (acc ++ String c EmptyString) t
  end.

(** [os.path.basename] *)
Definition os_path_basename (p : string) : string := basename_from EmptyString p.

Fixpoint ends_with_slash (s : string) : bool :=
  match s with
  | EmptyString => false
  | String c EmptyString => Ascii.eqb c "/"
  | String _ t => ends_with_slash t
  end.

(** [os.path.join] of two components. *)
Definition os_path_join (a b : string) : string :=
  if String.prefix "/" b then b
  else if orb (String.eqb a EmptyString) (ends_with_slash a) then a ++ b
  else a ++ "/" ++ b.

Definition zero_pad (width : nat) (digits : string) : string :=
  string_of_list_ascii (repeat "0"%char (width - String.length digits)) ++ digits.

(** [f"{n:03d}"] *)
Definition format_03d (n : Z) : string :=
  if (n <? 0)%Z then "-" ++ zero_pad 2 (nat_str (Z.abs_nat n))
  else zero_pad 3 (nat_str (Z.to_nat n)).

(** [enumerate(l, start)] *)
Fixpoint enumerate {A : Type} (l : list A) (start : Z) : list (Z * A) :=
  match l with
  | [] => []
  | x :: t => (start, x) :: enumerate t (start + 1)
  end.

Definition KNOWLEDGE_BASE : string := "/opt/flow-builder/data/knowledge-base".
Definition OUTPUT_DIR : string := "/opt/flow-builder/data/catalog-images".

(** [all_embeddings["catalogs"].append(catalog_data)], line 120. *)
Definition catalogs_append (db : database) (catalog_data : catalog) : database :=
  {| version := version db;
     model := model db;
     created := created db;
     catalogs := catalogs db ++ [catalog_data] |}.

(** *** The ingestion loop *)

Section Ingestion.

(** The collaborators: the rasterizer, PIL and the embedding model.  Each
    may raise. *)
Variable image : Type.
Variable convert_from_path : string -> result (list image).
Variable thumbnail : image -> result image.
Variable save_jpeg : image -> string -> result unit.
Variable encode : image -> result vector.
Variable makedirs : string -> result unit.

(** The body of the page loop, lines 93-110. *)
Definition process_page (catalog_dir : string) (numbered : Z * image)
  : result page :=
  let (page_num, page_image) := numbered in
  let image_filename := ("page_" ++ format_03d page_num ++ ".jpg")%string in
  let image_path := os_path_join catalog_dir image_filename in
  resized <- thumbnail page_image ;;
  _ <- save_jpeg resized image_path ;;
  embedding <- encode resized ;;
  Ok {| page_number := page_num;
        image_path := image_path;
        embedding := embedding |}.

(** The body of the [try], lines 86-114: the pages of one document. *)
Definition process_pages (pdf_path catalog_dir : string) : result (list page) :=
  pages <- convert_from_path pdf_path ;;
  for_each (process_page catalog_dir) (enumerate pages 1).

(** One iteration of the document loop, lines 70-121.  [makedirs] is
    outside the [try]: its exception ends the run.  An exception inside the
    [try] is printed and the loop continues with the next document. *)
Definition process_pdf (all_embeddings : database) (pdf_path : string)
  : result database :=
  let pdf_name := os_path_basename pdf_path in
  let catalog_name := catalog_name_of pdf_name in
  let catalog_dir := os_path_join OUTPUT_DIR (remove_dot_pdf pdf_name) in
  _ <- makedirs catalog_dir ;;
  match process_pages pdf_path catalog_dir with
  | Raise _ => Ok all_embeddings
  | Ok pages =>
      Ok (catalogs_append all_embeddings
            {| name := catalog_name;
               source_file := pdf_name;
               pages := pages |})
  end.

Definition catalog_dir_of (pdf_path : string) : string :=
  os_path_join OUTPUT_DIR (remove_dot_pdf (os_path_basename pdf_path)).


(** Lines 62-67. *)
Definition empty_database (now : string) : database :=
  {| version := "1.0";
     model := "clip-ViT-B-32";
     created := now;
     catalogs := [] |}.

Definition ingest_from (all_embeddings : database) (pdf_files : list string)
  : result database :=
  fold_left (fun acc pdf_path => db <- acc ;; process_pdf db pdf_path)
            pdf_files (Ok all_embeddings).

(** Lines 61-121: [pdf_files] is the list returned by [glob], [now] the
    timestamp of the run.  [Raise] is an uncaught exception. *)
Definition ingest (now : string) (pdf_files : list string) : result database :=
  ingest_from (empty_database now) pdf_files.

End Ingestion.

(** *** Saving the database, lines 125-126

    [open(EMBEDDINGS_FILE, 'w')] creates or truncates the destination;
    [json.dump] then writes the chunks of the encoder one after the other to
    the same file.  The disk holds the text of [EMBEDDINGS_FILE], or [None]
    when the file does not exist. *)

Inductive io_op : Type :=
| Open_w
| Write (chunk : string)
| Close.

Definition exec_op (disk : option string) (op : io_op) : option string :=
  match op, disk with
  | Open_w, _ => Some EmptyString
  | Write chunk, Some text => Some (text ++ chunk)%string
  | Write chunk, None => None
  | Close, _ => disk
  end.

Definition run_ops (ops : list io_op) (disk : option string) : option string :=
  fold_left exec_op ops disk.

(** [json.dump(obj, f)]: one [f.write] for each chunk that the encoder's
    [iterencode(obj)] yields. *)
Definition json_dump (chunks : list string) : list io_op := map Write chunks.

(** Lines 125-126, for the [chunks] of [all_embeddings]. *)
Definition save_ops (chunks : list string) : list io_op :=
  Open_w :: json_dump chunks ++ [Close].

Definition save (chunks : list string) (disk : option string) : option string :=
  run_ops (save_ops chunks) disk.

(** The disk when the process is interrupted after [n] operations. *)
Definition save_interrupted (n : nat) (chunks : list string)
  (disk : option string) : option string :=
  run_ops (firstn n (save_ops chunks)) disk.

(** The complete text of the artifact. *)
Definition join (chunks : list string) : string :=
  fold_right String.append EmptyString chunks.

(** ** The search on the artifact as [json.load] returns it

    The records above are what the generator writes.  [visual-search.py]
    itself checks nothing: it subscripts and iterates whatever value the
    decoder returns.  This section follows lines 73-102 on arbitrary JSON
    values, with Python's rules for subscripting and iterating each type of
    value. *)

#[warnings="-register-all"]
Inductive json : Type :=
| JNull
| JBool (b : bool)
| JInt (n : Z)
| JFloat (x : float)
| JString (s : string)
| JArray (items : list json)
| JObject (members : list (string * json)).

(** The name of the Python type of a decoded value. *)
Definition type_name (v : json) : string :=
  match v with
  | JNull => "NoneType"
  | JBool _ => "bool"
  | JInt _ => "int"
  | JFloat _ => "float"
  | JString _ => "str"
  | JArray _ => "list"
  | JObject _ => "dict"
  end.

(** A [TypeError]; [str] of it is its message. *)
Definition TypeError (msg : string) : exn := External msg.

(** The value of [key] in a decoded object: of two members with the same
    name the decoder keeps the later one. *)
Fixpoint dict_get (key : string) (members : list (string * json)) : option json :=
  match members with
  | [] => None
  | (k, v) :: rest =>
      match dict_get key rest with
      | Some later => Some later
      | None => if String.eqb k key then Some v else None
      end
  end.

(** The keys of a decoded object, each once, in the order of their first
    occurrence. *)
Fixpoint dict_keys_from (seen : list string) (members : list (string * json))
  : list string :=
  match members with
  | [] => []
  | (k, _) :: rest =>
      if existsb (String.eqb k) seen then dict_keys_from seen rest
      else k :: dict_keys_from (k :: seen) rest
  end.

Definition dict_keys (members : list (string * json)) : list string :=
  dict_keys_from [] members.

(** [v[key]] for a string [key] (the messages are those of Python 3.11 and
    later). *)
Definition py_getitem (v : json) (key : string) : result json :=
  match v with
  | JObject members =>
      match dict_get key members with
      | Some x => Ok x
      | None => Raise (KeyError key)
      end
  | JArray _ => Raise (TypeError "list indices must be integers or slices, not str")
  | JString _ => Raise (TypeError "string indices must be integers, not 'str'")
  | _ => Raise (TypeError ("'" ++ type_name v ++ "' object is not subscriptable"))
  end.

(** The values that [for x in v] visits: the items of a list, the keys of a
    dict, the characters of a string. *)
Definition py_iter (v : json) : result (list json) :=
  match v with
  | JArray items => Ok items
  | JObject members => Ok (map JString (dict_keys members))
  | JString s =>
      Ok (map (fun c => JString (String c EmptyString)) (list_ascii_of_string s))
  | _ => Raise (TypeError ("'" ++ type_name v ++ "' object is not iterable"))
  end.

(** A JSON list of floats, which [np.array] turns into a one-dimensional
    array of doubles. *)
Fixpoint floats_of (items : list json) : option vector :=
  match items with
  | [] => Some []
  | JFloat x :: rest => option_map (cons x) (floats_of rest)
  | _ :: _ => None
  end.

Definition as_floats (v : json) : option vector :=
  match v with
  | JArray items => floats_of items
  | _ => None
  end.

(** One entry of [results]: the stored values are copied as they are. *)
Record raw_match : Type := {
  r_catalog : json;
  r_page_number : json;
  r_image_path : json;
  r_similarity : float;
  r_source_file : json
}.

Inductive raw_file : Type :=
| Raw_absent
| Raw_not_json (msg : string) (lineno colno pos : nat)
| Raw_document (db : json).

Inductive raw_output : Type :=
| Raw_success (total_pages_searched : nat) (results : list raw_match)
| Raw_error (msg : string).

Section RawSearch.

(** What [float(cosine_similarity(query_embedding, b))] gives when [b] is
    not a list of floats: NumPy's treatment of nested lists, strings,
    integers, booleans and [None] is left open. *)
Variable cosine_of_other : vector -> json -> result float.

Definition raw_cosine (query_embedding : vector) (b : json) : result float :=
  match as_floats b with
  | Some v => cosine_similarity query_embedding v
  | None => cosine_of_other query_embedding b
  end.

(** [e] is raised by NumPy on a value that is not a list of floats. *)
Definition from_numpy_raw (query_embedding : vector) (e : exn) : Prop :=
  exists b, as_floats b = None /\ cosine_of_other query_embedding b = Raise e.

(** Lines 82-89, in the order of evaluation. *)
Definition raw_score_page (query_embedding : vector) (catalog_name catalog page : json)
  : result raw_match :=
  b <- py_getitem page "embedding" ;;
  similarity <- raw_cosine query_embedding b ;;
  page_number <- py_getitem page "page_number" ;;
  image_path <- py_getitem page "image_path" ;;
  source_file <- py_getitem catalog "source_file" ;;
  Ok {| r_catalog := catalog_name;
        r_page_number := page_number;
        r_image_path := image_path;
        r_similarity := similarity;
        r_source_file := source_file |}.

(** Lines 80-89. *)
Definition raw_scan_catalog (query_embedding : vector) (catalog : json)
  : result (list raw_match) :=
  catalog_name <- py_getitem catalog "name" ;;
  pages <- py_getitem catalog "pages" ;;
  page_list <- py_iter pages ;;
  for_each (raw_score_page query_embedding catalog_name catalog) page_list.

(** Lines 78-89. *)
Definition raw_scan (query_embedding : vector) (db : json)
  : result (list raw_match) :=
  catalogs <- py_getitem db "catalogs" ;;
  catalog_list <- py_iter catalogs ;;
  per_catalog <- for_each (raw_scan_catalog query_embedding) catalog_list ;;
  Ok (List.concat per_catalog).

Definition raw_json_load (f : raw_file) : result json :=
  match f with
  | Raw_document db => Ok db
  | Raw_not_json msg lineno colno pos =>
      Raise (JSONDecodeError msg lineno colno pos)
  | Raw_absent => Raise (External "[Errno 2] No such file or directory")
  end.

(** Lines 73-102. *)
Definition raw_search (f : raw_file) (query_embedding : vector) (top_k : Z)
  : result (nat * list raw_match) :=
  db <- raw_json_load f ;;
  results <- raw_scan query_embedding db ;;
  Ok (List.length results,
      slice_to (list_sort_reverse r_similarity results) top_k).

(** [main] from line 53 on, as [main] above. *)
Definition raw_main (f : raw_file) (query : result vector) (top_k : Z)
  : raw_output * Z :=
  match f with
  | Raw_absent => (Raw_error NOT_FOUND_MESSAGE, 1%Z)
  | _ =>
      match (query_embedding <- query ;; raw_search f query_embedding top_k) with
      | Ok (n, top_results) => (Raw_success n top_results, 0%Z)
      | Raise e => (Raw_error (str e), 1%Z)
      end
  end.

End RawSearch.

(** The document that [json.dump] and [json.load] make of the records. *)
Definition json_of_page (p : page) : json :=
  JObject [("page_number", JInt (page_number p));
           ("image_path", JString (image_path p));
           ("embedding", JArray (map JFloat (embedding p)))].

Definition json_of_catalog (c : catalog) : json :=
  JObject [("name", JString (name c));
           ("source_file", JString (source_file c));
           ("pages", JArray (map json_of_page (pages c)))].

Definition json_of_catalogs (cats : list catalog) : json :=
  JArray (map json_of_catalog cats).

Definition json_of_database (db : database) : json :=
  JObject [("version", JString (version db));
           ("model", JString (model db));
           ("created", JString (created db));
           ("catalogs", json_of_catalogs (catalogs db))].

Definition raw_of_match (m : Match) : raw_match :=
  {| r_catalog := JString (m_catalog m);
     r_page_number := JInt (m_page_number m);
     r_image_path := JString (m_image_path m);
     r_similarity := m_similarity m;
     r_source_file := JString (m_source_file m) |}.

(** The typed artifact, file and output as the values that they stand for. *)
Definition json_of_member {A : Type} (key : string) (to_json : A -> json)
  (v : option A) : list (string * json) :=
  match v with Some x => [(key, to_json x)] | None => [] end.

Definition json_of_artifact (a : artifact) : json :=
  JObject (json_of_member "version" JString (a_version a)
           ++ json_of_member "model" JString (a_model a)
           ++ json_of_member "created" JString (a_created a)
           ++ json_of_member "catalogs" json_of_catalogs (a_catalogs a)).

Definition raw_of_file (f : file) : raw_file :=
  match f with
  | Absent => Raw_absent
  | Not_json msg lineno colno pos => Raw_not_json msg lineno colno pos
  | Document a => Raw_document (json_of_artifact a)
  end.

Definition raw_of_output (o : output) : raw_output :=
  match o with
  | Success n results => Raw_success n (map raw_of_match results)
  | Error msg => Raw_error msg
  end.

(** The catalogs that the scan visits, the pages of a catalog, and the
    vectors stored in the document: what can be reached by the subscripts
    and loops of lines 79-82. *)
Definition raw_catalogs (db : json) : list json :=
  match (catalogs <- py_getitem db "catalogs" ;; py_iter catalogs) with
  | Ok l => l
  | Raise _ => []
  end.

Definition raw_pages (catalog : json) : list json :=
  match (pages <- py_getitem catalog "pages" ;; py_iter pages) with
  | Ok l => l
  | Raise _ => []
  end.

Definition raw_vector (page : json) : option vector :=
  match py_getitem page "embedding" with
  | Ok b => as_floats b
  | Raise _ => None
  end.

(** [v] is a vector stored in a page of the document. *)
Definition stored_vector (db : json) (v : vector) : Prop :=
  exists catalog page,
    In catalog (raw_catalogs db) /\ In page (raw_pages catalog)
    /\ raw_vector page = Some v.

(** The texts of the TypeErrors of subscripting and iterating. *)
Definition type_error_messages : list string :=
  ["list indices must be integers or slices, not str";
   "string indices must be integers, not 'str'";
   "'NoneType' object is not subscriptable";
   "'bool' object is not subscriptable";
   "'int' object is not subscriptable";
   "'float' object is not subscriptable";
   "'NoneType' object is not iterable";
   "'bool' object is not iterable";
   "'int' object is not iterable";
   "'float' object is not iterable"].

(** The exceptions of the search itself, as opposed to those that NumPy
    raises on a value that is not a list of floats. *)
Definition schema_exn (e : exn) : bool :=
  match e with
  | KeyError _ => true
  | ValueError_shapes _ _ => true
  | JSONDecodeError _ _ _ _ => true
  | External msg => existsb (String.eqb msg) type_error_messages
  end.

(** ** The command line of [visual-search.py] *)

Definition USAGE_MESSAGE : string :=
  "Usage: visual-search.py <image_path_or_base64> [top_k] OR visual-search.py --stdin [top_k]".

(** How a run of the script ends: a document on standard output and an exit
    status, or an exception that nothing catches. *)
Inductive outcome : Type :=
| Exit (out : output) (status : Z)
| Traceback (e : exn).

(** [s.split(",", 1)[1]] when [s] holds a comma. *)
Fixpoint after_first_comma (s : string) : option string :=
  match s with
  | EmptyString => None
  | String c t => if Ascii.eqb c "," then Some t else after_first_comma t
  end.

Section CommandLine.

(** The builtins [int] and [str.strip], the decoder of [base64], PIL's
    [Image.open] on a buffer and on a path, [os.path.exists] on the image
    argument, and lines 66-71 (loading the CLIP model, the thumbnail and the
    encoding of the query image). *)
Variable image : Type.
Variable int : string -> result Z.
Variable strip : string -> string.
Variable b64decode : string -> result string.
Variable Image_open_bytes : string -> result image.
Variable Image_open : string -> result image.
Variable path_exists : string -> bool.
Variable encode_query : image -> result vector.

(** [load_image], lines 23-38.  Unpacking the result of [split] into two
    names raises a ValueError when the text holds no comma. *)
Definition load_image (image_input : string) : result image :=
  if String.prefix "data:image" image_input then
    match after_first_comma image_input with
    | Some base64_data =>
        image_bytes <- b64decode base64_data ;;
        Image_open_bytes image_bytes
    | None => Raise (External "not enough values to unpack (expected 2, got 1)")
    end
  else if orb (String.prefix "/" image_input) (path_exists image_input) then
    Image_open image_input
  else
    image_bytes <- b64decode image_input ;;
    Image_open_bytes image_bytes.

(** Lines 61-71: the embedding of the query image. *)
Definition query_stage (image_input : string) : result vector :=
  query_image <- load_image image_input ;;
  encode_query query_image.

(** [main] from its first line: [argv] is [sys.argv], [stdin] the text on
    standard input.  [int] is called outside the [try]. *)
Definition main_cli (argv : list string) (stdin : string) (f : file) : outcome :=
  match argv with
  | [] | [_] => Exit (Error USAGE_MESSAGE) 1%Z
  | _ :: arg1 :: rest =>
      let image_input := if String.eqb arg1 "--stdin" then strip stdin else arg1 in
      match (match rest with
             | arg2 :: _ => int arg2
             | [] => Ok 5%Z
             end) with
      | Raise e => Traceback e
      | Ok top_k =>
          let (out, status) := main f (query_stage image_input) top_k in
          Exit out status
      end
  end.

End CommandLine.

(** ** The whole run of [generate-visual-embeddings.py] *)

Section Generator.

Variable image : Type.
Variable convert_from_path : string -> result (list image).
Variable thumbnail : image -> result image.
Variable save_jpeg : image -> string -> result unit.
Variable encode : image -> result vector.
Variable makedirs : string -> result unit.

(** [json.JSONEncoder.iterencode] on the database. *)
Variable iterencode : database -> list string.

(** Lines 61-126: the ingestion loop, then the save.  The result is the
    database or the uncaught exception, and the disk at the end. *)
Definition generate (now : string) (pdf_files : list string)
  (disk : option string) : result database * option string :=
  match ingest image convert_from_path thumbnail save_jpeg encode makedirs
          now pdf_files with
  | Ok all_embeddings => (Ok all_embeddings, save (iterencode all_embeddings) disk)
  | Raise e => (Raise e, disk)
  end.

(** Lines 129 and 135: the figures of the summary. *)
Definition summary (all_embeddings : database) : nat * nat :=
  (List.length (catalogs all_embeddings), total_pages (catalogs all_embeddings)).

(** The record that line 79 builds for a document whose pages are [ps]. *)
Definition catalog_of (pdf_path : string) (ps : list page) : catalog :=
  {| name := catalog_name_of (os_path_basename pdf_path);
     source_file := os_path_basename pdf_path;
     pages := ps |}.

(** The catalogs of the documents that are processed without an exception,
    in the order of the documents: what the loop is expected to append. *)
Definition processed_catalogs (pdf_files : list string) : list catalog :=
  flat_map
    (fun pdf_path =>
       match process_pages image convert_from_path thumbnail save_jpeg encode
               pdf_path (catalog_dir_of pdf_path) with
       | Ok ps => [catalog_of pdf_path ps]
       | Raise _ => []
       end)
    pdf_files.

(** What is stored for the page numbered [n] of a document. *)
Definition stored_page (catalog_dir : string) (numbered : Z * image) (p : page)
  : Prop :=
  page_number p = fst numbered
  /\ image_path p
     = os_path_join catalog_dir ("page_" ++ format_03d (fst numbered) ++ ".jpg")
  /\ exists resized,
       thumbnail (snd numbered) = Ok resized /\ encode resized = Ok (embedding p).

End Generator.

(** ** Vocabulary of the statements *)

(** The pages of a database in scan order, alone and with their catalog. *)
Definition all_pages (cats : list catalog) : list page := flat_map pages cats.

Definition tagged_pages (cats : list catalog) : list (catalog * page) :=
  flat_map (fun c => map (pair c) (pages c)) cats.

(** The dimension of a database: the length of the first vector encountered. *)
Definition db_dimension (cats : list catalog) : option nat :=
  match all_pages cats with
  | [] => None
  | p :: _ => Some (List.length (embedding p))
  end.

Definition dimension_is (D : nat) (cats : list catalog) : Prop :=
  Forall (fun p => List.length (embedding p) = D) (all_pages cats).

(** A vector of zeros, of either sign. *)
Definition all_zero (v : vector) : Prop :=
  Forall (fun x => F64.is_zero x = true) v.

(** The identity of a match and of a stored page: (catalog name, page number). *)
Definition match_key (m : Match) : string * Z := (m_catalog m, m_page_number m).

Definition page_keys (cats : list catalog) : list (string * Z) :=
  map (fun cp => (name (fst cp), page_number (snd cp))) (tagged_pages cats).

Definition key_leb (k1 k2 : string * Z) : bool :=
  match String.compare (fst k1) (fst k2) with
  | Lt => true
  | Eq => (snd k1 <=? snd k2)%Z
  | Gt => false
  end.

Definition same_score (s : float) (m : Match) : bool := F64.eqb (m_similarity m) s.

Definition no_nan_scores (l : list Match) : Prop :=
  Forall (fun m => F64.is_nan (m_similarity m) = false) l.

(** The scan succeeds and none of its scores is NaN. *)
Definition scan_without_nan (q : vector) (cats : list catalog) : bool :=
  match scan q cats with
  | Ok results => forallb (fun m => negb (F64.is_nan (m_similarity m))) results
  | Raise _ => false
  end.

(** Descending by score: every match scores at least as much as each later one. *)
Definition descending (l : list Match) : Prop :=
  StronglySorted
    (fun x y => F64.leb (m_similarity y) (m_similarity x) = true) l.

(** Ties in ascending order of (catalog name, page number). *)
Fixpoint tie_break_ascending (l : list Match) : bool :=
  match l with
  | [] => true
  | x :: t =>
      forallb (fun y => implb (F64.eqb (m_similarity x) (m_similarity y))
                              (key_leb (match_key x) (match_key y))) t
      && tie_break_ascending t
  end.

(** Page numbers 1, 2, 3, ... in storage order. *)
Definition numbered_from_1 (c : catalog) : Prop :=
  forall i p, nth_error (pages c) i = Some p -> page_number p = (Z.of_nat i + 1)%Z.

Definition strictly_ascending (c : catalog) : Prop :=
  StronglySorted Z.lt (map page_number (pages c)).


(** What every iteration of the ingestion loop preserves. *)
Definition ingestion_invariant (db : database) : Prop :=
  version db = "1.0" /\ model db = "clip-ViT-B-32"
  /\ Forall (fun c => numbered_from_1 c /\ strictly_ascending c) (catalogs db).

Definition count_name (n : string) (cats : list catalog) : nat :=
  List.length (filter (fun c => String.eqb (name c) n) cats).

Fixpoint last_char (s : string) : option ascii :=
  match s with
  | EmptyString => None
  | String c t => match last_char t with Some d => Some d | None => Some c end
  end.

(** The page number written in an image file name: the decimal number
    between ["page_"] and [".jpg"], leading zeros included. *)
Definition parse_decimal (digits : string) : option nat :=
  option_map Nat.of_uint (NilZero.uint_of_string digits).

(** The matches of [l] are the stored pages scored against [q]. *)
Definition match_of (q : vector) (cp : catalog * page) (m : Match) : Prop :=
  m_catalog m = name (fst cp)
  /\ m_page_number m = page_number (snd cp)
  /\ m_image_path m = image_path (snd cp)
  /\ m_source_file m = source_file (fst cp)
  /\ cosine_similarity q (embedding (snd cp)) = Ok (m_similarity m).

Fixpoint no_dash (s : string) : bool :=
  match s with
  | EmptyString => true
  | String c t => negb (Ascii.eqb c "-") && no_dash t
  end.

Fixpoint no_dot (s : string) : bool :=
  match s with
  | EmptyString => true
  | String c t => negb (Ascii.eqb c ".") && no_dot t
  end.

Fixpoint no_comma (s : string) : bool :=
  match s with
  | EmptyString => true
  | String c t => negb (Ascii.eqb c ",") && no_comma t
  end.

(** ** Sample databases *)

Module Sample.

Definition e1 : vector := [F64.one; F64.zero; F64.zero].
Definition e2 : vector := [F64.zero; F64.one; F64.zero].
Definition e3 : vector := [F64.zero; F64.zero; F64.one].
Definition origin : vector := [F64.zero; F64.zero; F64.zero].

Definition mk_page (n : Z) (dir : string) (v : vector) : page :=
  {| page_number := n;
     image_path := os_path_join dir ("page_" ++ format_03d n ++ ".jpg");
     embedding := v |}.

Definition mk_catalog (n : string) (vs : list vector) : catalog :=
  {| name := n;
     source_file := n ++ ".pdf";
     pages := map (fun nv => mk_page (fst nv) n (snd nv)) (enumerate vs 1) |}.

Definition mk_database (cats : list catalog) : database :=
  {| version := "1.0";
     model := "clip-ViT-B-32";
     created := "2024-03-01T00:00:00";
     catalogs := cats |}.

(** One catalog of three pages with orthogonal unit vectors. *)
Definition spring : database :=
  mk_database [mk_catalog "Spring2024" [e1; e2; e3]].

(** Two catalogs, stored in the order in which [glob] listed their files,
    each with one page of the same embedding. *)
Definition two_catalogs : database :=
  mk_database [mk_catalog "Spring2024" [e1]; mk_catalog "Autumn2023" [e1]].

(** A degenerate embedding stored before a valid one. *)
Definition degenerate : database :=
  mk_database [mk_catalog "Spring2024" [origin; e1]].

Definition empty : database := mk_database [].

(** A knowledge base of three documents; any other path fails to rasterize.
    An image is represented by the vector that the model returns for it,
    [None] being an image that the model rejects. *)
Definition image : Type := option vector.

Definition kb (file_name : string) : string := os_path_join KNOWLEDGE_BASE file_name.

Definition convert_from_path (pdf_path : string) : result (list image) :=
  if String.eqb pdf_path (kb "2023-Catalogo.pdf") then Ok [Some e1; Some e2]
  else if String.eqb pdf_path (kb "2024-Catalogo.pdf") then Ok [Some e3]
  else if String.eqb pdf_path (kb "scan.pdf") then Ok [Some e1; None; Some e3]
  else Raise (External "Unable to get page count.").

Definition thumbnail (img : image) : result image := Ok img.

Definition save_jpeg (img : image) (path : string) : result unit := Ok tt.

Definition encode (img : image) : result vector :=
  match img with
  | Some v => Ok v
  | None => Raise (External "cannot identify image file")
  end.

Definition makedirs (path : string) : result unit := Ok tt.


Definition ingest : string -> list string -> result database :=
  ingest image convert_from_path thumbnail save_jpeg encode makedirs.

(** The chunks that [json.dump] writes for [empty]. *)
Definition quoted (s : string) : string :=
  let dq := String (ascii_of_nat 34) EmptyString in dq ++ s ++ dq.

Definition empty_chunks : list string :=
  ["{"; quoted "version"; ": "; quoted "1.0"; ", ";
   quoted "model"; ": "; quoted "clip-ViT-B-32"; ", ";
   quoted "created"; ": "; quoted "2024-03-01T00:00:00"; ", ";
   quoted "catalogs"; ": "; "[]"; "}"].

(** A run in which the output directory of the 2024 catalog cannot be
    created. *)
Definition makedirs_denied (path : string) : result unit :=
  if String.eqb path (catalog_dir_of (kb "2024-Catalogo.pdf"))
  then Raise (External "[Errno 13] Permission denied")
  else Ok tt.

(** A stand-in for the JSON encoder, exact on databases without catalogs:
    the chunks of the catalog records are left out. *)
Definition iterencode (db : database) : list string :=
  ["{"; quoted "version"; ": "; quoted (version db); ", ";
   quoted "model"; ": "; quoted (model db); ", ";
   quoted "created"; ": "; quoted (created db); ", ";
   quoted "catalogs"; ": "]
  ++ match catalogs db with [] => ["[]"] | _ => ["["; "]"] end
  ++ ["}"].

(** A command line: [int] on decimal digits, no stripping, a decoder and an
    image reader that accept every text, and no file at relative paths. *)
Definition int (s : string) : result Z :=
  match NilZero.uint_of_string s with
  | Some d => Ok (Z.of_nat (Nat.of_uint d))
  | None => Raise (External ("invalid literal for int() with base 10: '" ++ s ++ "'"))
  end.

Definition strip (s : string) : string := s.

Definition b64decode (s : string) : result string := Ok s.

Definition Image_open_bytes (image_bytes : string) : result vector := Ok e1.

Definition Image_open (path : string) : result vector :=
  Raise (External "No such file or directory").

Definition path_exists (path : string) : bool := false.

Definition encode_query (v : vector) : result vector := Ok v.

Definition main_cli : list string -> string -> file -> outcome :=
  main_cli vector int strip b64decode Image_open_bytes Image_open path_exists
    encode_query.

(** NumPy on an embedding that is not a list of floats: here it always
    raises. *)
Definition cosine_of_other (q : vector) (b : json) : result float :=
  Raise (External "unsupported operand type(s)").

(** An artifact with a malformed version and without the keys [model] and
    [created]. *)
Definition without_model : json :=
  JObject [("version", JInt 7); ("catalogs", json_of_catalogs (catalogs spring))].

(** An artifact whose [catalogs] is an object instead of a list. *)
Definition catalogs_object : json :=
  JObject [("version", JString "1.0"); ("model", JString "clip-ViT-B-32");
           ("created", JString "2024-03-01T00:00:00"); ("catalogs", JObject [])].

(** A catalog without [source_file] whose second page has a vector of
    another length. *)
Definition without_source_file : json :=
  JObject
    [("catalogs",
      JArray
        [JObject
           [("name", JString "Spring2024");
            ("pages",
             JArray
               [json_of_page (mk_page 1 "Spring2024" e1);
                json_of_page (mk_page 2 "Spring2024" [F64.one])])]])].

End Sample.

(** * Properties *)

(** ** The order of binary64 floats *)

Module F64Order.

Ltac split_compare :=
  repeat match goal with
  | |- context [Pos.compare_cont Eq ?a ?b] =>
      change (Pos.compare_cont Eq a b) with (Pos.compare a b)
  end;
  repeat match goal with
  | |- context [Z.compare ?a ?b] => destruct (Z.compare_spec a b)
  | |- context [Pos.compare ?a ?b] => destruct (Pos.compare_spec a b)
  end.

(** Case analysis on the floats of the goal, their signs and the
    comparisons of their exponents and mantissas. *)
Ltac by_cases :=
  unfold F64.ltb, F64.leb, F64.eqb, F64.is_nan, SFltb, SFleb, SFeqb;
  repeat match goal with x : F64.float |- _ => destruct x end;
  repeat match goal with s : bool |- _ => destruct s end;
  cbn; try (intros; discriminate); try (intros; reflexivity);
  split_compare; cbn; intros; try discriminate; try reflexivity; try lia.

Lemma ltb_trans (x y z : float) :
  F64.ltb x y = true -> F64.ltb y z = true -> F64.ltb x z = true.
Proof. by_cases. Qed.

Lemma ltb_leb (x y : float) : F64.ltb x y = true -> F64.leb x y = true.
Proof. by_cases. Qed.

Lemma not_ltb_leb (x y : float) :
  F64.is_nan x = false -> F64.is_nan y = false ->
  F64.ltb x y = false -> F64.leb y x = true.
Proof. by_cases. Qed.

Lemma leb_trans (x y z : float) :
  F64.leb x y = true -> F64.leb y z = true -> F64.leb x z = true.
Proof. by_cases. Qed.

Lemma ltb_leb_trans (x y z : float) :
  F64.ltb x y = true -> F64.leb y z = true -> F64.ltb x z = true.
Proof. by_cases. Qed.

Lemma ltb_eqb_r (x z s : float) :
  F64.ltb x z = true -> F64.eqb x s = true -> F64.eqb z s = false.
Proof. by_cases. Qed.

Lemma leb_antisym_eqb (x y : float) :
  F64.leb x y = true -> F64.leb y x = true -> F64.eqb x y = true.
Proof. by_cases. Qed.

Lemma eqb_refl (x : float) : F64.is_nan x = false -> F64.eqb x x = true.
Proof. by_cases. Qed.

Lemma eqb_sym (x y : float) : F64.eqb x y = F64.eqb y x.
Proof. by_cases. Qed.

End F64Order.

(** ** Generic facts on lists and loops *)

Section ListFacts.

Context {A : Type}.

Lemma StronglySorted_app (R : A -> A -> Prop) (l1 l2 : list A) :
  StronglySorted R l1 -> StronglySorted R l2 ->
  (forall x y, In x l1 -> In y l2 -> R x y) ->
  StronglySorted R (l1 ++ l2).
Proof.
  induction l1 as [|a l1 IH]; intros H1 H2 H12; simpl; [assumption|].
  apply StronglySorted_inv in H1. destruct H1 as [H1 Ha].
  constructor.
  - apply IH; [assumption | assumption | ].
    intros x y Hx Hy. apply H12; [right; assumption | assumption].
  - apply Forall_app. split; [assumption|].
    apply Forall_forall. intros y Hy. apply H12; [left; reflexivity | assumption].
Qed.

Lemma StronglySorted_rev (R : A -> A -> Prop) (l : list A) :
  StronglySorted R l -> StronglySorted (fun x y => R y x) (rev l).
Proof.
  induction 1 as [|a l Hl IH Ha]; simpl; [constructor|].
  apply StronglySorted_app.
  - exact IH.
  - repeat constructor.
  - intros x y Hx [<-|[]]. rewrite Forall_forall in Ha.
    apply Ha. apply in_rev. exact Hx.
Qed.

Lemma StronglySorted_firstn (R : A -> A -> Prop) (n : nat) (l : list A) :
  StronglySorted R l -> StronglySorted R (firstn n l).
Proof.
  intros H. revert n. induction H as [|a l Hl IH Ha]; intros [|n]; simpl;
    try constructor.
  - apply IH.
  - rewrite Forall_forall in *. intros x Hx. apply Ha.
    rewrite <- (firstn_skipn n l). apply in_or_app. left. exact Hx.
Qed.

Lemma filter_none (p : A -> bool) (l : list A) :
  (forall y, In y l -> p y = false) -> filter p l = [].
Proof.
  induction l as [|x l IH]; intros H; simpl; [reflexivity|].
  rewrite (H x (or_introl eq_refl)). apply IH.
  intros y Hy. apply H. right. exact Hy.
Qed.

Lemma filter_firstn_prefix (p : A -> bool) (n : nat) (l : list A) :
  filter p l = filter p (firstn n l) ++ filter p (skipn n l).
Proof. rewrite <- filter_app, firstn_skipn. reflexivity. Qed.

Lemma slice_to_firstn (l : list A) (k : Z) :
  exists n, slice_to l k = firstn n l.
Proof. unfold slice_to. destruct (0 <=? k)%Z; eexists; reflexivity. Qed.

Lemma slice_to_positive (l : list A) (k : Z) :
  (0 < k)%Z -> slice_to l k = firstn (Z.to_nat k) l.
Proof.
  intros Hk. unfold slice_to.
  destruct (Z.leb_spec 0 k); [reflexivity | lia].
Qed.

End ListFacts.

Section LoopFacts.

Context {A B : Type}.
Variable body : A -> result B.

Lemma for_each_ok (l : list A) :
  Forall (fun x => exists y, body x = Ok y) l ->
  exists ys, for_each body l = Ok ys /\ List.length ys = List.length l.
Proof.
  induction 1 as [|x l [y Hy] _ [ys [Hys Hlen]]]; simpl.
  - exists []. split; reflexivity.
  - exists (y :: ys). rewrite Hy, Hys. simpl. split; [reflexivity | congruence].
Qed.

Lemma for_each_raise (P : exn -> Prop) (l : list A) :
  (forall x e, In x l -> body x = Raise e -> P e) ->
  Exists (fun x => exists e, body x = Raise e) l ->
  exists e, for_each body l = Raise e /\ P e.
Proof.
  intros HP Hex. induction l as [|x l IH]; [inversion Hex|].
  simpl. destruct (body x) as [y|e] eqn:Hx.
  - simpl. destruct IH as [e [He HPe]].
    + intros x' e' Hin. apply HP. right. exact Hin.
    + inversion Hex as [? ? [e He]|]; subst; [congruence | assumption].
    + exists e. rewrite He. split; [reflexivity | exact HPe].
  - exists e. split; [reflexivity|]. apply (HP x); [left; reflexivity | exact Hx].
Qed.

Lemma for_each_inv (l : list A) (ys : list B) :
  for_each body l = Ok ys -> Forall2 (fun x y => body x = Ok y) l ys.
Proof.
  revert ys. induction l as [|x l IH]; simpl; intros ys H.
  - injection H as <-. constructor.
  - destruct (body x) as [y|] eqn:Hx; simpl in H; [|discriminate].
    destruct (for_each body l) as [ys'|]; simpl in H; [|discriminate].
    injection H as <-. constructor; [exact Hx | apply IH; reflexivity].
Qed.

End LoopFacts.

(** ** The sort *)

Section SortFacts.

Context {A : Type}.
Variable key : A -> float.

Let asc (x y : A) : Prop := F64.leb (key x) (key y) = true.
Let desc (x y : A) : Prop := F64.leb (key y) (key x) = true.
Let no_nan (x : A) : Prop := F64.is_nan (key x) = false.

Lemma stable_sort_rev (l : list A) :
  stable_sort key (rev l) = fold_right (insert key) [] l.
Proof.
  unfold stable_sort.
  rewrite <- (fold_left_rev_right (insert key) (rev l) []).
  rewrite rev_involutive. reflexivity.
Qed.

Lemma insert_In (x y : A) (l : list A) :
  In y (insert key x l) <-> y = x \/ In y l.
Proof.
  induction l as [|z l IH]; simpl.
  - intuition congruence.
  - destruct (F64.ltb (key x) (key z)); simpl; rewrite ?IH; intuition congruence.
Qed.

Lemma insert_length (x : A) (l : list A) :
  List.length (insert key x l) = S (List.length l).
Proof.
  induction l as [|z l IH]; simpl; [reflexivity|].
  destruct (F64.ltb (key x) (key z)); simpl; congruence.
Qed.

Lemma insert_sorted (x : A) (l : list A) :
  no_nan x -> Forall no_nan l ->
  StronglySorted asc l -> StronglySorted asc (insert key x l).
Proof.
  intros Hx Hl Hs. induction Hs as [|z l Hs IH Hz]; simpl.
  - repeat constructor.
  - apply Forall_cons_iff in Hl. destruct Hl as [Hnz Hl].
    destruct (F64.ltb (key x) (key z)) eqn:Hlt.
    + constructor; [constructor; assumption|].
      constructor; [apply F64Order.ltb_leb; exact Hlt|].
      rewrite Forall_forall in *. intros y Hy.
      apply F64Order.leb_trans with (key z);
        [apply F64Order.ltb_leb; exact Hlt | apply Hz; exact Hy].
    + constructor; [apply IH; exact Hl|].
      rewrite Forall_forall in *. intros y Hy.
      apply insert_In in Hy. destruct Hy as [->|Hy].
      * apply F64Order.not_ltb_leb; assumption.
      * apply Hz. exact Hy.
Qed.

(** Inserting [x] places it after every element of the same score. *)
Lemma insert_filter (s : float) (x : A) (l : list A) :
  StronglySorted asc l ->
  filter (fun y => F64.eqb (key y) s) (insert key x l)
  = filter (fun y => F64.eqb (key y) s) l
      ++ (if F64.eqb (key x) s then [x] else []).
Proof.
  intros Hs. induction Hs as [|z l Hs IH Hz]; simpl.
  - destruct (F64.eqb (key x) s); reflexivity.
  - destruct (F64.ltb (key x) (key z)) eqn:Hlt.
    + simpl. destruct (F64.eqb (key x) s) eqn:Hxs.
      * assert (Hnone : filter (fun y => F64.eqb (key y) s) (z :: l) = []).
        { apply filter_none. intros y Hy.
          apply F64Order.ltb_eqb_r with (key x); [|exact Hxs].
          destruct Hy as [<-|Hy]; [exact Hlt|].
          apply F64Order.ltb_leb_trans with (key z); [exact Hlt|].
          rewrite Forall_forall in Hz. apply Hz. exact Hy. }
        simpl in Hnone. rewrite Hnone. reflexivity.
      * rewrite app_nil_r. reflexivity.
    + simpl. rewrite IH. destruct (F64.eqb (key z) s); reflexivity.
Qed.

Lemma fold_insert_In (y : A) (l : list A) :
  In y (fold_right (insert key) [] l) <-> In y l.
Proof.
  induction l as [|x l IH]; simpl; [tauto|].
  rewrite insert_In, IH. intuition congruence.
Qed.

Lemma fold_insert_sorted (l : list A) :
  Forall no_nan l -> StronglySorted asc (fold_right (insert key) [] l).
Proof.
  induction 1 as [|x l Hx Hl IH]; simpl; [constructor|].
  apply insert_sorted; [exact Hx | | exact IH].
  rewrite Forall_forall in *. intros y Hy. apply Hl.
  apply fold_insert_In. exact Hy.
Qed.

Lemma fold_insert_filter (s : float) (l : list A) :
  Forall no_nan l ->
  filter (fun y => F64.eqb (key y) s) (fold_right (insert key) [] l)
  = rev (filter (fun y => F64.eqb (key y) s) l).
Proof.
  induction 1 as [|x l Hx Hl IH]; simpl; [reflexivity|].
  rewrite insert_filter by (apply fold_insert_sorted; exact Hl).
  rewrite IH. destruct (F64.eqb (key x) s); simpl;
    [reflexivity | apply app_nil_r].
Qed.

Lemma list_sort_reverse_length (l : list A) :
  List.length (list_sort_reverse key l) = List.length l.
Proof.
  unfold list_sort_reverse. rewrite length_rev, stable_sort_rev.
  induction l as [|x l IH]; simpl; [reflexivity|].
  rewrite insert_length. congruence.
Qed.

Lemma list_sort_reverse_In (y : A) (l : list A) :
  In y (list_sort_reverse key l) <-> In y l.
Proof.
  unfold list_sort_reverse. rewrite <- in_rev, stable_sort_rev.
  apply fold_insert_In.
Qed.

(** On scores without NaN the result is in descending order. *)
Lemma list_sort_reverse_sorted (l : list A) :
  Forall no_nan l -> StronglySorted desc (list_sort_reverse key l).
Proof.
  intros Hl. unfold list_sort_reverse. rewrite stable_sort_rev.
  apply (StronglySorted_rev asc). apply fold_insert_sorted. exact Hl.
Qed.

(** On scores without NaN the sort is stable: the elements of one score
    come out in the order in which they went in. *)
Lemma list_sort_reverse_stable (s : float) (l : list A) :
  Forall no_nan l ->
  filter (fun y => F64.eqb (key y) s) (list_sort_reverse key l)
  = filter (fun y => F64.eqb (key y) s) l.
Proof.
  intros Hl. unfold list_sort_reverse.
  rewrite filter_rev, stable_sort_rev, fold_insert_filter by exact Hl.
  apply rev_involutive.
Qed.

(** On scores without NaN there is one stable descending arrangement only:
    whatever stable algorithm sorts the list, the result is the same. *)
Lemma stable_descending_unique (l1 l2 : list A) :
  Forall no_nan l1 -> Forall no_nan l2 ->
  StronglySorted desc l1 -> StronglySorted desc l2 ->
  (forall s, filter (fun y => F64.eqb (key y) s) l1
             = filter (fun y => F64.eqb (key y) s) l2) ->
  l1 = l2.
Proof.
  intros H1. revert l2. induction H1 as [|x t1 Hx H1 IH]; intros l2 H2 S1 S2 Hf.
  - destruct H2 as [|y t2 Hy H2]; [reflexivity|].
    specialize (Hf (key y)). simpl in Hf.
    rewrite (F64Order.eqb_refl _ Hy) in Hf. discriminate.
  - destruct H2 as [|y t2 Hy H2].
    + specialize (Hf (key x)). simpl in Hf.
      rewrite (F64Order.eqb_refl _ Hx) in Hf. discriminate.
    + apply StronglySorted_inv in S1. destruct S1 as [S1 Hx1].
      apply StronglySorted_inv in S2. destruct S2 as [S2 Hy2].
      rewrite Forall_forall in Hx1, Hy2.
      assert (Heq : F64.eqb (key x) (key y) = true).
      { destruct (F64.eqb (key x) (key y)) eqn:Hxy; [reflexivity|].
        rewrite <- Hxy. apply F64Order.leb_antisym_eqb.
        - assert (Hin : In x (filter (fun z => F64.eqb (key z) (key x)) (y :: t2))).
          { rewrite <- Hf. simpl. rewrite (F64Order.eqb_refl _ Hx). left. reflexivity. }
          apply filter_In in Hin. destruct Hin as [[->|Hin] _].
          + rewrite (F64Order.eqb_refl _ Hx) in Hxy. discriminate.
          + apply Hy2. exact Hin.
        - assert (Hin : In y (filter (fun z => F64.eqb (key z) (key y)) (x :: t1))).
          { rewrite Hf. simpl. rewrite (F64Order.eqb_refl _ Hy). left. reflexivity. }
          apply filter_In in Hin. destruct Hin as [[->|Hin] _].
          + rewrite (F64Order.eqb_refl _ Hy) in Hxy. discriminate.
          + apply Hx1. exact Hin. }
      assert (Hxy : x = y).
      { pose proof (Hf (key x)) as H. simpl in H.
        rewrite (F64Order.eqb_refl _ Hx), (F64Order.eqb_sym (key y)), Heq in H.
        congruence. }
      subst y. f_equal. apply IH; try assumption.
      intros s. specialize (Hf s). simpl in Hf.
      destruct (F64.eqb (key x) s); congruence.
Qed.

(** In particular the model agrees with every stable descending sort. *)
Lemma list_sort_reverse_unique (l l' : list A) :
  Forall no_nan l -> Forall no_nan l' ->
  StronglySorted desc l' ->
  (forall s, filter (fun y => F64.eqb (key y) s) l'
             = filter (fun y => F64.eqb (key y) s) l) ->
  l' = list_sort_reverse key l.
Proof.
  intros Hl Hl' Hs Hf. apply stable_descending_unique.
  - exact Hl'.
  - apply Forall_forall. intros y Hy.
    rewrite Forall_forall in Hl. apply Hl.
    apply (proj1 (list_sort_reverse_In y l)). exact Hy.
  - exact Hs.
  - apply list_sort_reverse_sorted. exact Hl.
  - intros s. rewrite list_sort_reverse_stable by exact Hl. apply Hf.
Qed.

End SortFacts.

(** ** The scan *)

Section ScanFacts.

Variable q : vector.

Let score (cp : catalog * page) : result Match :=
  score_page q (fst cp) (snd cp).

Lemma for_each_app {A B : Type} (body : A -> result B) (l1 l2 : list A) :
  for_each body (l1 ++ l2)
  = (ys1 <- for_each body l1 ;; ys2 <- for_each body l2 ;; Ok (ys1 ++ ys2)).
Proof.
  induction l1 as [|x l1 IH]; simpl.
  - destruct (for_each body l2); reflexivity.
  - destruct (body x); simpl; [|reflexivity]. rewrite IH.
    destruct (for_each body l1); simpl; [|reflexivity].
    destruct (for_each body l2); reflexivity.
Qed.

Lemma for_each_tagged (c : catalog) (ps : list page) :
  for_each score (map (pair c) ps) = for_each (score_page q c) ps.
Proof.
  induction ps as [|p ps IH]; simpl; [reflexivity|].
  unfold score at 1. simpl. rewrite IH. reflexivity.
Qed.

(** The nested loops are one loop over the pages in scan order. *)
Lemma scan_flat (cats : list catalog) :
  scan q cats = for_each score (tagged_pages cats).
Proof.
  unfold scan. induction cats as [|c cats IH]; simpl; [reflexivity|].
  rewrite for_each_app, for_each_tagged.
  destruct (for_each (score_page q c) (pages c)); simpl; [|reflexivity].
  rewrite <- IH.
  destruct (for_each _ cats); reflexivity.
Qed.

Lemma all_pages_tagged (cats : list catalog) :
  all_pages cats = map snd (tagged_pages cats).
Proof.
  unfold all_pages, tagged_pages.
  induction cats as [|c cats IH]; simpl; [reflexivity|].
  rewrite map_app, map_map, map_id, IH. reflexivity.
Qed.

Lemma total_pages_all_pages (cats : list catalog) :
  total_pages cats = List.length (all_pages cats).
Proof.
  unfold total_pages, all_pages.
  induction cats as [|c cats IH]; simpl; [reflexivity|].
  rewrite length_app, IH. reflexivity.
Qed.

Lemma score_ok (cp : catalog * page) :
  List.length (embedding (snd cp)) = List.length q ->
  exists m, score cp = Ok m /\ match_key m = (name (fst cp), page_number (snd cp)).
Proof.
  intros Hlen. unfold score, score_page, cosine_similarity, np_dot.
  rewrite Hlen, Nat.eqb_refl. simpl. eexists. split; reflexivity.
Qed.

Lemma score_raise (cp : catalog * page) :
  List.length (embedding (snd cp)) <> List.length q ->
  score cp
  = Raise (ValueError_shapes (List.length q) (List.length (embedding (snd cp)))).
Proof.
  intros Hlen. unfold score, score_page, cosine_similarity, np_dot.
  destruct (Nat.eqb_spec (List.length q) (List.length (embedding (snd cp))));
    [congruence | reflexivity].
Qed.

Lemma score_inv (cp : catalog * page) (m : Match) :
  score cp = Ok m ->
  match_key m = (name (fst cp), page_number (snd cp))
  /\ List.length (embedding (snd cp)) = List.length q.
Proof.
  unfold score, score_page, cosine_similarity, np_dot.
  destruct (Nat.eqb_spec (List.length q) (List.length (embedding (snd cp))));
    simpl; [|discriminate].
  intros H. injection H as <-. split; [reflexivity | congruence].
Qed.

(** When every stored vector has the length of the query the scan returns
    one match per page. *)
Lemma scan_ok (cats : list catalog) :
  dimension_is (List.length q) cats ->
  exists results,
    scan q cats = Ok results /\ List.length results = total_pages cats.
Proof.
  intros Hdim. rewrite scan_flat, total_pages_all_pages, all_pages_tagged.
  rewrite length_map. apply for_each_ok.
  unfold dimension_is in Hdim. rewrite all_pages_tagged in Hdim.
  rewrite Forall_map in Hdim. apply (Forall_impl _ (P := fun cp =>
    List.length (embedding (snd cp)) = List.length q)); [|exact Hdim].
  intros cp Hcp. destruct (score_ok cp Hcp) as [m [Hm _]]. exists m. exact Hm.
Qed.

(** A successful scan lists the pages in the order of the database. *)
Lemma scan_keys (cats : list catalog) (results : list Match) :
  scan q cats = Ok results ->
  map match_key results = page_keys cats
  /\ List.length results = total_pages cats.
Proof.
  rewrite scan_flat, total_pages_all_pages, all_pages_tagged, length_map.
  unfold page_keys. intros H. apply for_each_inv in H.
  induction H as [|cp m l ms Hm _ [IH1 IH2]]; simpl; [split; reflexivity|].
  apply score_inv in Hm. destruct Hm as [Hm _].
  rewrite Hm, IH1, IH2. split; reflexivity.
Qed.

(** A stored vector of another length than the query makes the scan raise
    NumPy's shape error. *)
Lemma scan_raise (cats : list catalog) :
  Exists (fun p => List.length (embedding p) <> List.length q) (all_pages cats) ->
  exists n, n <> List.length q
    /\ scan q cats = Raise (ValueError_shapes (List.length q) n).
Proof.
  intros Hex. rewrite scan_flat.
  destruct (for_each_raise score
    (fun e => exists n, n <> List.length q
                /\ e = ValueError_shapes (List.length q) n)
    (tagged_pages cats)) as [e [He [n [Hn ->]]]].
  - intros cp e _ Hcp.
    destruct (Nat.eq_dec (List.length (embedding (snd cp))) (List.length q))
      as [Heq|Hneq].
    + destruct (score_ok cp Heq) as [m [Hm _]]. congruence.
    + rewrite (score_raise cp Hneq) in Hcp. injection Hcp as <-.
      eexists. split; [exact Hneq | reflexivity].
  - rewrite all_pages_tagged in Hex. apply Exists_exists in Hex.
    destruct Hex as [p [Hin Hp]]. apply in_map_iff in Hin.
    destruct Hin as [cp [<- Hin]]. apply Exists_exists.
    exists cp. split; [exact Hin|]. eexists. apply score_raise. exact Hp.
  - exists n. split; assumption.
Qed.

(** The first page already raises when its vector has another length. *)
Lemma scan_raise_first (cats : list catalog) (D : nat) :
  db_dimension cats = Some D -> List.length q <> D ->
  scan q cats = Raise (ValueError_shapes (List.length q) D).
Proof.
  unfold db_dimension. rewrite scan_flat, all_pages_tagged.
  destruct (tagged_pages cats) as [|cp l]; simpl; [discriminate|].
  intros H Hneq. injection H as <-.
  fold (score cp). rewrite score_raise by congruence. reflexivity.
Qed.

End ScanFacts.

(** ** The ranking engine *)

Lemma rank_of_scan (db : database) (q : vector) (k : Z) (results : list Match) :
  scan q (catalogs db) = Ok results ->
  rank db q k = Ok (slice_to (list_sort_reverse m_similarity results) k).
Proof. intros H. unfold rank, search_catalogs. rewrite H. reflexivity. Qed.

Lemma main_of_scan (db : database) (q : vector) (k : Z) (r : result (list Match)) :
  scan q (catalogs db) = r ->
  main (Document (artifact_of db)) (Ok q) k
  = match r with
    | Ok results =>
        (Success (List.length results)
                 (slice_to (list_sort_reverse m_similarity results) k), 0%Z)
    | Raise e => (Error (str e), 1%Z)
    end.
Proof.
  intros H. unfold main, search, search_catalogs. simpl. rewrite H.
  destruct r; reflexivity.
Qed.

(** C1, as the code has it.  When the scan yields no NaN score, [rank]
    returns the matches in descending order of score; the matches of one
    score come out in the order of the scan, which is the order of the
    catalogs in the database and of the pages in each catalog, not the
    ascending order of (catalog name, page number); and two runs on the same
    database and query return the same sequence. *)
Theorem rank_descending_scan_order (db : database) (q : vector) (k : Z) :
  scan_without_nan q (catalogs db) = true ->
  exists results res,
    scan q (catalogs db) = Ok results
    /\ map match_key results = page_keys (catalogs db)
    /\ rank db q k = Ok res
    /\ descending res
    /\ (forall s, exists rest,
          filter (same_score s) results = filter (same_score s) res ++ rest)
    /\ (forall res', rank db q k = Ok res' -> res' = res).
Proof.
  unfold scan_without_nan. destruct (scan q (catalogs db)) as [results|] eqn:Hscan;
    [|discriminate].
  intros Hnan. rewrite forallb_forall in Hnan.
  assert (Hno : no_nan_scores results).
  { apply Forall_forall. intros m Hm. apply negb_true_iff, Hnan, Hm. }
  exists results. rewrite (rank_of_scan db q k results Hscan).
  eexists. split; [reflexivity|].
  split; [apply (scan_keys q _ _ Hscan)|].
  split; [reflexivity|].
  destruct (slice_to_firstn (list_sort_reverse m_similarity results) k)
    as [n Hn]. rewrite Hn.
  split; [|split].
  - apply StronglySorted_firstn.
    apply (list_sort_reverse_sorted m_similarity). exact Hno.
  - intros s. exists (filter (same_score s)
                        (skipn n (list_sort_reverse m_similarity results))).
    rewrite <- filter_firstn_prefix. symmetry.
    apply (list_sort_reverse_stable m_similarity s). exact Hno.
  - intros res' H. congruence.
Qed.

Lemma rank_descending_scan_order_witness :
  scan_without_nan Sample.e1 (catalogs Sample.spring) = true
  /\ exists res,
       rank Sample.spring Sample.e1 2 = Ok res
       /\ descending res
       /\ map match_key res = [("Spring2024", 1%Z); ("Spring2024", 2%Z)].
Proof.
  split; [vm_compute; reflexivity|].
  destruct (rank_descending_scan_order Sample.spring Sample.e1 2)
    as [results [res [_ [_ [Hres [Hdesc _]]]]]].
  - vm_compute. reflexivity.
  - exists res. split; [exact Hres|]. split; [exact Hdesc|].
    vm_compute in Hres. injection Hres as <-. reflexivity.
Defined.

(** C1, as the spec states it, fails: two catalogs stored as "Spring2024"
    then "Autumn2023", one page each with the same embedding, tie at score
    1.0 and come out in stored order, "Spring2024" first. *)
Lemma rank_tie_break_counterexample :
  exists x y,
    rank Sample.two_catalogs Sample.e1 5 = Ok [x; y]
    /\ F64.eqb (m_similarity x) (m_similarity y) = true
    /\ match_key x = ("Spring2024", 1%Z)
    /\ match_key y = ("Autumn2023", 1%Z)
    /\ key_leb (match_key x) (match_key y) = false
    /\ tie_break_ascending [x; y] = false.
Proof. do 2 eexists. vm_compute. repeat split; reflexivity. Qed.

(** With a NaN score, even a list of two is not in descending order. *)
Example rank_nan_first :
  exists x y,
    rank Sample.degenerate Sample.e1 5 = Ok [x; y]
    /\ m_similarity x = F64.nan /\ m_similarity y = F64.one.
Proof. do 2 eexists. vm_compute. repeat split; reflexivity. Qed.

(** C5.  A query vector whose length differs from the dimension of the
    database makes [rank] fail with NumPy's shape error, and [main] prints
    that error and exits with status 1. *)
Theorem rank_dimension_mismatch (db : database) (q : vector) (k : Z) (D : nat) :
  db_dimension (catalogs db) = Some D ->
  List.length q <> D ->
  rank db q k = Raise (ValueError_shapes (List.length q) D)
  /\ main (Document (artifact_of db)) (Ok q) k
     = (Error (str (ValueError_shapes (List.length q) D)), 1%Z).
Proof.
  intros HD Hneq. pose proof (scan_raise_first q _ D HD Hneq) as Hscan.
  split.
  - unfold rank, search_catalogs. rewrite Hscan. reflexivity.
  - rewrite (main_of_scan db q k _ Hscan). reflexivity.
Qed.

Lemma rank_dimension_mismatch_witness :
  rank Sample.spring [F64.one; F64.zero] 5 = Raise (ValueError_shapes 2 3)
  /\ main (Document (artifact_of Sample.spring)) (Ok [F64.one; F64.zero]) 5
     = (Error "shapes (2,) and (3,) not aligned: 2 (dim 0) != 3 (dim 0)", 1%Z).
Proof.
  apply (rank_dimension_mismatch Sample.spring [F64.one; F64.zero] 5 3).
  - reflexivity.
  - simpl. lia.
Defined.

(** C8.  For a query of the dimension of the database and a positive
    [top_k], [rank] returns [min(top_k, total pages)] matches, [main] reports
    success, and a database without pages yields the empty sequence. *)
Theorem rank_length (db : database) (q : vector) (k : Z) :
  dimension_is (List.length q) (catalogs db) ->
  (0 < k)%Z ->
  exists res,
    rank db q k = Ok res
    /\ main (Document (artifact_of db)) (Ok q) k
       = (Success (total_pages (catalogs db)) res, 0%Z)
    /\ List.length res = Nat.min (Z.to_nat k) (total_pages (catalogs db))
    /\ (total_pages (catalogs db) = 0 -> res = []).
Proof.
  intros Hdim Hk. destruct (scan_ok q _ Hdim) as [results [Hscan Hlen]].
  rewrite (rank_of_scan db q k results Hscan).
  rewrite (main_of_scan db q k _ Hscan), Hlen.
  eexists. split; [reflexivity|]. split; [reflexivity|].
  rewrite slice_to_positive by exact Hk.
  assert (Hmin : List.length
                   (firstn (Z.to_nat k) (list_sort_reverse m_similarity results))
                 = Nat.min (Z.to_nat k) (total_pages (catalogs db))).
  { rewrite length_firstn, list_sort_reverse_length, Hlen. reflexivity. }
  split; [exact Hmin|].
  intros Hzero. rewrite Hzero, Nat.min_0_r in Hmin.
  apply length_zero_iff_nil. exact Hmin.
Qed.

Lemma rank_length_witness :
  exists res,
    rank Sample.spring Sample.e1 5 = Ok res /\ List.length res = 3.
Proof.
  destruct (rank_length Sample.spring Sample.e1 5) as [res [H [_ [Hlen _]]]].
  - unfold dimension_is. simpl. repeat constructor.
  - lia.
  - exists res. split; [exact H | exact Hlen].
Defined.

(** The empty database, for any query and any [top_k]. *)
Example rank_empty (q : vector) (k : Z) : rank Sample.empty q k = Ok [].
Proof. unfold rank, search_catalogs, slice_to. simpl. destruct (0 <=? k)%Z;
  [rewrite firstn_nil | ]; reflexivity. Qed.

(** ** The score of a degenerate vector *)

Section Degenerate.

Let zeros := all_zero.
Let zero_or_nan := F64.zero_or_nan.
Let step (acc : float) (xy : float * float) : float :=
  F64.add acc (F64.mul (fst xy) (snd xy)).

Ltac float_cases :=
  unfold F64.add, F64.mul, F64.div, F64.sqrt, F64.is_zero, F64.is_nan,
    F64.is_finite in *;
  repeat match goal with x : F64.float |- _ => destruct x end;
  repeat match goal with s : bool |- _ => destruct s end;
  cbn in *; try discriminate; auto.

Lemma step_zero_r (acc x y : float) :
  zero_or_nan acc -> F64.is_zero y = true -> zero_or_nan (step acc (x, y)).
Proof.
  unfold zero_or_nan, F64.zero_or_nan, step. cbn [fst snd]. intros [H|H] Hy; float_cases.
Qed.

Lemma step_zero_l (acc x y : float) :
  zero_or_nan acc -> F64.is_zero x = true -> zero_or_nan (step acc (x, y)).
Proof.
  unfold zero_or_nan, F64.zero_or_nan, step. cbn [fst snd]. intros [H|H] Hx; float_cases.
Qed.

Lemma step_zero (acc x : float) :
  F64.is_zero acc = true -> F64.is_zero x = true ->
  F64.is_zero (step acc (x, x)) = true.
Proof. unfold step. cbn [fst snd]. intros H Hx; float_cases. Qed.

Lemma fold_zero_r (a b : vector) (acc : float) :
  zeros b -> zero_or_nan acc -> zero_or_nan (fold_left step (combine a b) acc).
Proof.
  intros Hb. revert a acc. induction Hb as [|y b Hy Hb IH]; intros a acc Hacc.
  - destruct a; exact Hacc.
  - destruct a as [|x a]; [exact Hacc|]. simpl. apply IH.
    apply step_zero_r; assumption.
Qed.

Lemma fold_zero_l (a b : vector) (acc : float) :
  zeros a -> zero_or_nan acc -> zero_or_nan (fold_left step (combine a b) acc).
Proof.
  intros Ha. revert b acc. induction Ha as [|x a Hx Ha IH]; intros b acc Hacc.
  - exact Hacc.
  - destruct b as [|y b]; [exact Hacc|]. simpl. apply IH.
    apply step_zero_l; assumption.
Qed.

Lemma fold_zero_self (b : vector) (acc : float) :
  zeros b -> F64.is_zero acc = true ->
  F64.is_zero (fold_left step (combine b b) acc) = true.
Proof.
  intros Hb. revert acc. induction Hb as [|y b Hy Hb IH]; intros acc Hacc.
  - exact Hacc.
  - simpl. apply IH. apply step_zero; assumption.
Qed.

Lemma dot_kernel_zero_r (a b : vector) : zeros b -> zero_or_nan (dot_kernel a b).
Proof. intros Hb. apply fold_zero_r; [exact Hb | left; reflexivity]. Qed.

Lemma dot_kernel_zero_l (a b : vector) : zeros a -> zero_or_nan (dot_kernel a b).
Proof. intros Ha. apply fold_zero_l; [exact Ha | left; reflexivity]. Qed.

(** The norm of the zero vector is zero. *)
Lemma np_norm_zeros (v : vector) : zeros v -> F64.is_zero (np_norm v) = true.
Proof.
  intros Hv. unfold np_norm.
  pose proof (fold_zero_self v F64.zero Hv eq_refl) as H.
  change (F64.is_zero (dot_kernel v v) = true) in H.
  destruct (dot_kernel v v); try discriminate H. reflexivity.
Qed.

(** A product with a zero is a zero or NaN. *)
Lemma mul_zero_r (x y : float) :
  F64.is_zero y = true -> zero_or_nan (F64.mul x y).
Proof. unfold zero_or_nan, F64.zero_or_nan. intros Hy; float_cases. Qed.

Lemma mul_zero_l (x y : float) :
  F64.is_zero x = true -> zero_or_nan (F64.mul x y).
Proof. unfold zero_or_nan, F64.zero_or_nan. intros Hx; float_cases. Qed.

(** IEEE division by a zero: no finite quotient, and NaN for 0/0. *)
Lemma div_zero_not_finite (d z : float) :
  zero_or_nan z -> F64.is_finite (F64.div d z) = false.
Proof. unfold zero_or_nan, F64.zero_or_nan. intros [H|H]; float_cases. Qed.

Lemma div_zero_zero (d z : float) :
  zero_or_nan d -> zero_or_nan z -> F64.div d z = F64.nan.
Proof. unfold zero_or_nan, F64.zero_or_nan. intros [Hd|Hd] [Hz|Hz]; float_cases. Qed.

(** C2, as the code has it.  [cosine_similarity] has no guard: on two
    vectors of equal length it performs the IEEE division without raising.
    When either norm is zero the score is not a finite number, and when
    either vector consists of zeros the score is NaN, not minus infinity.
    The ranking has no rule for such a score: when the scan yields two
    matches of which one scores NaN, they are returned in scan order. *)
Theorem cosine_similarity_degenerate (a b : vector) :
  List.length a = List.length b ->
  (exists score,
     cosine_similarity a b = Ok score
     /\ (F64.is_zero (np_norm a) = true \/ F64.is_zero (np_norm b) = true ->
         F64.is_finite score = false)
     /\ (all_zero a \/ all_zero b -> score = F64.nan))
  /\ (forall (db : database) (q : vector) (k : Z) (x y : Match),
        scan q (catalogs db) = Ok [x; y] ->
        F64.is_nan (m_similarity x) = true \/ F64.is_nan (m_similarity y) = true ->
        rank db q k = Ok (slice_to [x; y] k)).
Proof.
  intros Hlen. split.
  - unfold cosine_similarity, np_dot.
    rewrite Hlen, Nat.eqb_refl. simpl. eexists. split; [reflexivity|]. split.
    + intros [H|H]; apply div_zero_not_finite;
        [apply mul_zero_l | apply mul_zero_r]; exact H.
    + intros [H|H]; apply div_zero_zero.
      * apply dot_kernel_zero_l. exact H.
      * apply mul_zero_l, np_norm_zeros. exact H.
      * apply dot_kernel_zero_r. exact H.
      * apply mul_zero_r, np_norm_zeros. exact H.
  - intros db q k x y Hscan Hnan. rewrite (rank_of_scan _ _ _ _ Hscan).
    do 2 f_equal. unfold list_sort_reverse, stable_sort. simpl.
    assert (Hlt : F64.ltb (m_similarity x) (m_similarity y) = false).
    { destruct Hnan as [H|H]; unfold F64.ltb, SFltb, SFcompare.
      - destruct (m_similarity x); try discriminate H. reflexivity.
      - destruct (m_similarity y); try discriminate H.
        destruct (m_similarity x) as [| | |? ? ?]; reflexivity. }
    rewrite Hlt. reflexivity.
Qed.

End Degenerate.

(** A stored vector whose squares underflow has norm zero although it is not
    the zero vector: the score is then plus infinity. *)
Example cosine_similarity_underflow :
  let tiny := S754_finite false 4503599627370496 (-652) in
  np_norm [tiny] = F64.zero
  /\ cosine_similarity [F64.one] [tiny] = Ok (S754_infinity false).
Proof. vm_compute. split; reflexivity. Qed.

Lemma cosine_similarity_degenerate_witness :
  List.length Sample.e1 = List.length Sample.origin
  /\ cosine_similarity Sample.e1 Sample.origin = Ok F64.nan.
Proof.
  split; [reflexivity|].
  destruct (cosine_similarity_degenerate Sample.e1 Sample.origin eq_refl)
    as [[score [Hscore [_ Hnan]]] _].
  rewrite Hscore. f_equal. apply Hnan. right. repeat constructor.
Defined.

(** C2, as the spec states it, fails: the score of the zero vector is NaN,
    not minus infinity, and in the ranking the page with that score, stored
    first, comes out before a page of score 1.0. *)
Lemma cosine_similarity_zero_counterexample :
  cosine_similarity Sample.e1 Sample.origin = Ok F64.nan
  /\ cosine_similarity Sample.e1 Sample.origin <> Ok F64.neg_infinity
  /\ exists x y,
       rank Sample.degenerate Sample.e1 5 = Ok [x; y]
       /\ match_key x = ("Spring2024", 1%Z) /\ m_similarity x = F64.nan
       /\ match_key y = ("Spring2024", 2%Z) /\ m_similarity y = F64.one.
Proof.
  split; [vm_compute; reflexivity|].
  split; [vm_compute; discriminate|].
  do 2 eexists. vm_compute. repeat split; reflexivity.
Qed.

(** ** Strings *)

Lemma append_nil_r (s : string) : (s ++ EmptyString)%string = s.
Proof. induction s as [|c s IH]; simpl; [reflexivity | rewrite IH; reflexivity]. Qed.

Lemma append_assoc (s t u : string) :
  ((s ++ t) ++ u)%string = (s ++ (t ++ u))%string.
Proof. induction s as [|c s IH]; simpl; [reflexivity | rewrite IH; reflexivity]. Qed.

Lemma last_char_append (s t : string) :
  last_char (s ++ t)
  = match last_char t with Some d => Some d | None => last_char s end.
Proof.
  induction s as [|c s IH]; simpl.
  - destruct (last_char t); reflexivity.
  - rewrite IH. destruct (last_char t); reflexivity.
Qed.

(** ** Appending a catalog *)

(** C3, as the code has it.  The append of the ingestion loop never fails and
    checks no name: the database afterwards holds the catalogs it held,
    followed by the new one, so a name that was present is present once
    more.  There is no replace option. *)
Theorem catalogs_append_keeps_duplicates (db : database) (c : catalog) :
  catalogs (catalogs_append db c) = catalogs db ++ [c]
  /\ count_name (name c) (catalogs (catalogs_append db c))
     = S (count_name (name c) (catalogs db))
  /\ version (catalogs_append db c) = version db
  /\ model (catalogs_append db c) = model db.
Proof.
  split; [reflexivity|]. split; [|split; reflexivity].
  unfold count_name. simpl. rewrite filter_app, length_app. simpl.
  rewrite String.eqb_refl. simpl. lia.
Qed.

(** C3, as the spec states it, fails: two documents whose names differ only
    before the first dash give the same catalog name; the second append
    succeeds and the database holds both records. *)
Lemma append_duplicate_counterexample :
  exists db c1 c2,
    Sample.ingest "2024-03-01T00:00:00"
      [Sample.kb "2023-Catalogo.pdf"; Sample.kb "2024-Catalogo.pdf"] = Ok db
    /\ catalogs db = [c1; c2]
    /\ name c1 = "Catalogo" /\ name c2 = "Catalogo"
    /\ source_file c1 = "2023-Catalogo.pdf" /\ source_file c2 = "2024-Catalogo.pdf"
    /\ count_name "Catalogo" (catalogs db) = 2.
Proof. do 3 eexists. vm_compute. repeat split; reflexivity. Qed.

(** ** Saving *)

Lemma run_json_dump (chunks : list string) (n : nat) (text : string) :
  run_ops (firstn n (json_dump chunks ++ [Close])) (Some text)
  = Some (text ++ join (firstn n chunks))%string.
Proof.
  revert n text. induction chunks as [|c chunks IH]; intros n text.
  - destruct n as [|[|n]]; simpl; rewrite append_nil_r; reflexivity.
  - destruct n as [|n]; simpl.
    + rewrite append_nil_r. reflexivity.
    + unfold run_ops in IH. rewrite IH, append_assoc. reflexivity.
Qed.

(** C4, as the code has it.  [save] opens the destination itself for
    writing, which truncates it, and writes the chunks to it one by one.  An
    interruption before the first operation leaves the previous file; after
    [n + 1] operations the destination holds the first [n] chunks; the
    complete artifact is there only at the end. *)
Theorem save_writes_in_place (chunks : list string) (disk : option string) :
  save_interrupted 0 chunks disk = disk
  /\ (forall n,
        save_interrupted (S n) chunks disk = Some (join (firstn n chunks)))
  /\ save chunks disk = Some (join chunks).
Proof.
  split; [reflexivity|]. split.
  - intros n. unfold save_interrupted, save_ops. simpl.
    destruct disk; apply (run_json_dump chunks n EmptyString).
  - unfold save. rewrite <- (firstn_all (save_ops chunks)).
    change (save_interrupted (List.length (save_ops chunks)) chunks disk
            = Some (join chunks)).
    unfold save_ops at 1. simpl. unfold save_interrupted, save_ops. simpl.
    assert (H := run_json_dump chunks (List.length (json_dump chunks ++ [Close]))
                                 EmptyString).
    simpl in H. destruct disk; unfold run_ops in *; rewrite H;
      rewrite firstn_all2; try reflexivity;
      unfold json_dump; rewrite length_app, length_map; simpl; lia.
Qed.

(** C4, as the spec states it, fails: interrupted after the first chunk, the
    destination holds neither the previous artifact nor the new one. *)
Lemma save_not_atomic_counterexample :
  let previous := Some "previous artifact" in
  save_interrupted 2 Sample.empty_chunks previous = Some "{"
  /\ save_interrupted 2 Sample.empty_chunks previous <> previous
  /\ save_interrupted 2 Sample.empty_chunks previous
     <> save Sample.empty_chunks previous.
Proof. vm_compute. repeat split; discriminate. Qed.

(** ** Ingestion *)

Lemma enumerate_numbers {A : Type} (l : list A) (start : Z) :
  (forall i n, nth_error (map fst (enumerate l start)) i = Some n ->
               n = (Z.of_nat i + start)%Z)
  /\ Forall (fun n => (start <= n)%Z) (map fst (enumerate l start))
  /\ StronglySorted Z.lt (map fst (enumerate l start)).
Proof.
  revert start. induction l as [|x l IH]; intros start; simpl.
  - split; [intros [|i] n H; discriminate|]. split; constructor.
  - destruct (IH (start + 1)%Z) as [Hnth [Hge Hsorted]].
    split; [|split].
    + intros [|i] n H; simpl in H.
      * injection H as <-. lia.
      * apply Hnth in H. lia.
    + constructor; [lia|].
      apply (Forall_impl _ (P := fun n => (start + 1 <= n)%Z)); [|exact Hge].
      intros n Hn. lia.
    + constructor; [exact Hsorted|].
      apply (Forall_impl _ (P := fun n => (start + 1 <= n)%Z)); [|exact Hge].
      intros n Hn. lia.
Qed.

Section IngestionFacts.

Variable image : Type.
Variable convert_from_path : string -> result (list image).
Variable thumbnail : image -> result image.
Variable save_jpeg : image -> string -> result unit.
Variable encode : image -> result vector.
Variable makedirs : string -> result unit.

Let do_page := process_page image thumbnail save_jpeg encode.
Let do_pages := process_pages image convert_from_path thumbnail save_jpeg encode.
Let do_pdf :=
  process_pdf image convert_from_path thumbnail save_jpeg encode makedirs.
Let run_from :=
  ingest_from image convert_from_path thumbnail save_jpeg encode makedirs.
Let run := ingest image convert_from_path thumbnail save_jpeg encode makedirs.

Lemma process_page_number (dir : string) (numbered : Z * image) (p : page) :
  do_page dir numbered = Ok p -> page_number p = fst numbered.
Proof.
  unfold do_page, process_page. destruct numbered as [n img].
  destruct (thumbnail img) as [r|]; simpl; [|discriminate].
  destruct (save_jpeg r _); simpl; [|discriminate].
  destruct (encode r); simpl; [|discriminate].
  intros H. injection H as <-. reflexivity.
Qed.


(** The pages of a processed document carry the numbers 1, 2, 3, ... *)
Lemma process_pages_numbered (pdf_path dir : string) (ps : list page) :
  do_pages pdf_path dir = Ok ps ->
  exists images : list image, map page_number ps = map fst (enumerate images 1).
Proof.
  unfold do_pages, process_pages.
  destruct (convert_from_path pdf_path) as [images|]; simpl; [|discriminate].
  intros H. exists images. apply for_each_inv in H.
  induction H as [|numbered p l ps' Hp _ IH]; simpl; [reflexivity|].
  fold do_page in Hp. rewrite (process_page_number _ _ _ Hp), IH.
  reflexivity.
Qed.



Lemma ingest_from_raise (e : exn) (pdf_files : list string) :
  fold_left (fun acc pdf_path => db <- acc ;; do_pdf db pdf_path)
            pdf_files (Raise e) = Raise e.
Proof. induction pdf_files as [|p l IH]; simpl; [reflexivity | exact IH]. Qed.

Lemma ingest_from_cons (db : database) (p : string) (l : list string) :
  run_from db (p :: l) = (db' <- do_pdf db p ;; run_from db' l).
Proof.
  unfold run_from, ingest_from. simpl.
  fold do_pdf. destruct (do_pdf db p); simpl;
    [reflexivity | apply ingest_from_raise].
Qed.

Lemma ingest_from_app (db : database) (l1 l2 : list string) :
  run_from db (l1 ++ l2) = (db' <- run_from db l1 ;; run_from db' l2).
Proof.
  revert db. induction l1 as [|p l1 IH]; intros db; [reflexivity|].
  simpl app. rewrite !ingest_from_cons.
  destruct (do_pdf db p); simpl; [apply IH | reflexivity].
Qed.

Lemma process_pdf_invariant (db db' : database) (p : string) :
  ingestion_invariant db -> do_pdf db p = Ok db' ->
  ingestion_invariant db'
  /\ List.length (catalogs db') <= S (List.length (catalogs db)).
Proof.
  intros [Hv [Hm Hc]]. unfold do_pdf, process_pdf.
  destruct (makedirs _); simpl; [|discriminate].
  destruct (process_pages _ _ _ _ _ _ _) as [ps|] eqn:Hps.
  - intros H. injection H as <-. simpl.
    split; [|rewrite length_app; simpl; lia].
    split; [exact Hv|]. split; [exact Hm|].
    apply Forall_app. split; [exact Hc|]. constructor; [|constructor].
    destruct (process_pages_numbered _ _ _ Hps) as [images Hnum].
    destruct (enumerate_numbers images 1) as [Hnth [_ Hsorted]].
    unfold numbered_from_1, strictly_ascending. simpl. rewrite Hnum.
    split; [|exact Hsorted].
    intros i pg Hi. apply Hnth. rewrite <- Hnum.
    rewrite nth_error_map, Hi. reflexivity.
  - intros H. injection H as <-. split; [|lia]. split; [exact Hv|].
    split; [exact Hm | exact Hc].
Qed.

Lemma ingest_from_invariant (pdf_files : list string) (db db' : database) :
  ingestion_invariant db -> run_from db pdf_files = Ok db' ->
  ingestion_invariant db'
  /\ List.length (catalogs db')
     <= List.length (catalogs db) + List.length pdf_files.
Proof.
  revert db. induction pdf_files as [|p l IH]; intros db Hinv.
  - intros H. injection H as <-. split; [exact Hinv | simpl; lia].
  - rewrite ingest_from_cons. destruct (do_pdf db p) as [db1|] eqn:H1;
      simpl; [|discriminate].
    intros H. destruct (process_pdf_invariant db db1 p Hinv H1) as [Hinv1 Hlen1].
    destruct (IH db1 Hinv1 H) as [Hinv' Hlen']. split; [exact Hinv'|].
    simpl. lia.
Qed.

(** The run ends normally when every output directory can be created. *)
Lemma ingest_from_total (pdf_files : list string) (db : database) :
  (forall p, In p pdf_files -> makedirs (catalog_dir_of p) = Ok tt) ->
  exists db', run_from db pdf_files = Ok db'.
Proof.
  revert db. induction pdf_files as [|p l IH]; intros db Hdirs.
  - exists db. reflexivity.
  - rewrite ingest_from_cons.
    assert (H1 : exists db1, do_pdf db p = Ok db1).
    { unfold do_pdf, process_pdf. fold (catalog_dir_of p).
      rewrite (Hdirs p (or_introl eq_refl)). simpl.
      destruct (process_pages _ _ _ _ _ _ _); eexists; reflexivity. }
    destruct H1 as [db1 H1]. rewrite H1. simpl. apply IH.
    intros p' Hp'. apply Hdirs. right. exact Hp'.
Qed.

Lemma empty_database_invariant (now : string) :
  ingestion_invariant (empty_database now).
Proof. repeat split. constructor. Qed.


(** C10.  In every catalog record that the run produces, the page stored at
    position [i] (counting from 0) has page number [i + 1], and the page
    numbers are strictly ascending. *)
Theorem ingest_pages_numbered
  (now : string) (pdf_files : list string) (db : database) :
  run now pdf_files = Ok db ->
  Forall (fun c => numbered_from_1 c /\ strictly_ascending c) (catalogs db).
Proof.
  intros H.
  destruct (ingest_from_invariant _ _ _ (empty_database_invariant now) H)
    as [[_ [_ Hc]] _].
  exact Hc.
Qed.

End IngestionFacts.


Lemma ingest_pages_numbered_witness :
  exists db,
    Sample.ingest "2024-03-01T00:00:00" [Sample.kb "2023-Catalogo.pdf"] = Ok db
    /\ Forall (fun c => numbered_from_1 c /\ strictly_ascending c) (catalogs db).
Proof.
  eexists. split; [vm_compute; reflexivity|].
  apply (ingest_pages_numbered
           Sample.image Sample.convert_from_path Sample.thumbnail
           Sample.save_jpeg Sample.encode Sample.makedirs
           "2024-03-01T00:00:00" [Sample.kb "2023-Catalogo.pdf"]).
  vm_compute. reflexivity.
Defined.

(** ** Failures of the search *)

Lemma for_each_raise_inv {A B : Type} (body : A -> result B) (l : list A) (e : exn) :
  for_each body l = Raise e -> exists x, In x l /\ body x = Raise e.
Proof.
  induction l as [|x l IH]; simpl; [discriminate|].
  destruct (body x) as [y|e'] eqn:Hx; simpl.
  - destruct (for_each body l) as [ys|e'']; simpl; [discriminate|].
    intros H. injection H as ->. destruct (IH eq_refl) as [x' [Hin Hx']].
    exists x'. split; [right; exact Hin | exact Hx'].
  - intros H. injection H as ->. exists x. split; [left; reflexivity | exact Hx].
Qed.

(** The scan raises nothing but the shape error of [np.dot]. *)
Lemma scan_raise_inv (q : vector) (cats : list catalog) (e : exn) :
  scan q cats = Raise e -> exists n m, e = ValueError_shapes n m.
Proof.
  rewrite scan_flat. intros H. apply for_each_raise_inv in H.
  destruct H as [cp [_ H]]. unfold score_page, cosine_similarity, np_dot in H.
  destruct (Nat.eqb _ _); simpl in H; [discriminate|].
  injection H as <-. do 2 eexists. reflexivity.
Qed.

Lemma str_shapes_not_found (n m : nat) :
  str (ValueError_shapes n m) <> NOT_FOUND_MESSAGE.
Proof. unfold NOT_FOUND_MESSAGE. simpl. discriminate. Qed.

Lemma str_key_error_not_found : str (KeyError "catalogs") <> NOT_FOUND_MESSAGE.
Proof. vm_compute. discriminate. Qed.

Lemma str_json_not_found (msg : string) (lineno colno pos : nat) :
  str (JSONDecodeError msg lineno colno pos) <> NOT_FOUND_MESSAGE.
Proof.
  intros H. apply (f_equal last_char) in H. revert H. unfold str.
  rewrite !last_char_append. vm_compute. discriminate.
Qed.

(** A failure of the load or of the scan never prints the message of the
    missing database. *)
Lemma main_error_not_found (f : file) (q : vector) (k : Z) (msg : string) (status : Z) :
  os_path_exists f = true ->
  main f (Ok q) k = (Error msg, status) ->
  msg <> NOT_FOUND_MESSAGE.
Proof.
  unfold main. intros ->. simpl. unfold search.
  destruct f as [|m l c p|a]; simpl.
  - intros H. injection H as <- _. vm_compute. discriminate.
  - intros H. injection H as <- _. apply str_json_not_found.
  - unfold getitem_catalogs. destruct (a_catalogs a) as [cats|]; simpl.
    + unfold search_catalogs. destruct (scan q cats) as [results|e] eqn:Hscan;
        simpl; [discriminate|].
      intros H. injection H as <- _.
      destruct (scan_raise_inv q cats e Hscan) as [n [m ->]].
      apply str_shapes_not_found.
    + intros H. injection H as <- _. apply str_key_error_not_found.
Qed.

(** C7.  When the artifact does not exist, [main] prints the message that
    tells to run the generator first and exits with status 1, whatever the
    query; no failure on an existing artifact, corrupt or not, prints that
    message. *)
Theorem main_not_found (f : file) (query : result vector) (k : Z) :
  os_path_exists f = false ->
  main f query k = (Error NOT_FOUND_MESSAGE, 1%Z)
  /\ (forall f' q k' msg status,
        os_path_exists f' = true ->
        main f' (Ok q) k' = (Error msg, status) ->
        msg <> NOT_FOUND_MESSAGE).
Proof.
  intros Hf. split.
  - unfold main. rewrite Hf. reflexivity.
  - intros f' q k' msg status. apply main_error_not_found.
Qed.

Lemma main_not_found_witness :
  os_path_exists Absent = false
  /\ main Absent (Ok Sample.e1) 5
     = (Error "Visual embeddings database not found. Run generate-visual-embeddings.py first.",
        1%Z)
  /\ main (Not_json "Expecting value" 1 1 0) (Ok Sample.e1) 5
     = (Error "Expecting value: line 1 column 1 (char 0)", 1%Z).
Proof.
  split; [reflexivity|].
  destruct (main_not_found Absent (Ok Sample.e1) 5 eq_refl) as [H _].
  split; [exact H | reflexivity].
Defined.


(** * Further properties of the code *)

(** ** The ranking as a selection of the best pages *)

Section SortPermutation.

Context {A : Type}.
Variable key : A -> float.

Lemma insert_perm (x : A) (l : list A) : Permutation (insert key x l) (x :: l).
Proof.
  induction l as [|y l IH]; simpl; [apply Permutation_refl|].
  destruct (F64.ltb (key x) (key y)); [apply Permutation_refl|].
  apply perm_trans with (y :: x :: l); [apply perm_skip; exact IH | apply perm_swap].
Qed.

(** The sort rearranges the list: nothing is lost and nothing is repeated. *)
Lemma list_sort_reverse_perm (l : list A) :
  Permutation (list_sort_reverse key l) l.
Proof.
  unfold list_sort_reverse. rewrite stable_sort_rev.
  apply perm_trans with (fold_right (insert key) [] l);
    [apply Permutation_sym, Permutation_rev|].
  induction l as [|x l IH]; simpl; [apply perm_nil|].
  apply perm_trans with (x :: fold_right (insert key) [] l);
    [apply insert_perm | apply perm_skip; exact IH].
Qed.

Lemma StronglySorted_app_inv (R : A -> A -> Prop) (l1 l2 : list A) :
  StronglySorted R (l1 ++ l2) -> forall x y, In x l1 -> In y l2 -> R x y.
Proof.
  induction l1 as [|a l1 IH]; simpl; intros Hs x y Hx Hy; [contradiction|].
  apply StronglySorted_inv in Hs. destruct Hs as [Hs Ha].
  destruct Hx as [<-|Hx].
  - rewrite Forall_forall in Ha. apply Ha. apply in_or_app. right. exact Hy.
  - apply (IH Hs x y Hx Hy).
Qed.

End SortPermutation.

Lemma scan_without_nan_inv (q : vector) (cats : list catalog) :
  scan_without_nan q cats = true ->
  exists results, scan q cats = Ok results /\ no_nan_scores results.
Proof.
  unfold scan_without_nan. destruct (scan q cats) as [results|]; [|discriminate].
  intros H. exists results. split; [reflexivity|].
  rewrite forallb_forall in H. apply Forall_forall. intros m Hm.
  apply negb_true_iff, H, Hm.
Qed.

(** X1.  The matches that [rank] returns are the best ones: together with the
    matches it leaves out they are the scan rearranged, and none that is left
    out scores more than one that is returned. *)
Theorem rank_top_k_optimal (db : database) (q : vector) (k : Z) :
  scan_without_nan q (catalogs db) = true ->
  exists results res rest,
    scan q (catalogs db) = Ok results
    /\ rank db q k = Ok res
    /\ Permutation results (res ++ rest)
    /\ (forall x y, In x res -> In y rest ->
          F64.leb (m_similarity y) (m_similarity x) = true).
Proof.
  intros H. destruct (scan_without_nan_inv _ _ H) as [results [Hscan Hnan]].
  exists results. rewrite (rank_of_scan db q k results Hscan).
  destruct (slice_to_firstn (list_sort_reverse m_similarity results) k)
    as [n Hn]. rewrite Hn.
  exists (firstn n (list_sort_reverse m_similarity results)),
         (skipn n (list_sort_reverse m_similarity results)).
  split; [exact Hscan|]. split; [reflexivity|].
  rewrite firstn_skipn. split.
  - apply Permutation_sym, list_sort_reverse_perm.
  - apply (StronglySorted_app_inv
             (fun x y => F64.leb (m_similarity y) (m_similarity x) = true)).
    rewrite firstn_skipn.
    apply (list_sort_reverse_sorted m_similarity). exact Hnan.
Qed.

Lemma rank_top_k_optimal_witness :
  scan_without_nan Sample.e2 (catalogs Sample.spring) = true
  /\ exists res rest,
       rank Sample.spring Sample.e2 1 = Ok res
       /\ map match_key res = [("Spring2024", 2%Z)]
       /\ List.length rest = 2
       /\ (forall x y, In x res -> In y rest ->
             F64.leb (m_similarity y) (m_similarity x) = true).
Proof.
  split; [vm_compute; reflexivity|].
  destruct (rank_top_k_optimal Sample.spring Sample.e2 1)
    as [results [res [rest [Hscan [Hres [Hperm Hbest]]]]]].
  - vm_compute. reflexivity.
  - exists res, rest. split; [exact Hres|].
    apply Permutation_length in Hperm. rewrite length_app in Hperm.
    vm_compute in Hscan. injection Hscan as <-.
    vm_compute in Hres. injection Hres as <-.
    split; [reflexivity|]. split; [simpl in Hperm; lia | exact Hbest].
Defined.

(** X2.  With [top_k] at least the number of pages, every stored page is returned
    exactly once, whatever the scores. *)
Theorem rank_returns_every_page (db : database) (q : vector) (k : Z) :
  dimension_is (List.length q) (catalogs db) ->
  (Z.of_nat (total_pages (catalogs db)) <= k)%Z ->
  exists res,
    rank db q k = Ok res
    /\ Permutation (map match_key res) (page_keys (catalogs db)).
Proof.
  intros Hdim Hk. destruct (scan_ok q _ Hdim) as [results [Hscan Hlen]].
  rewrite (rank_of_scan db q k results Hscan). eexists. split; [reflexivity|].
  unfold slice_to. destruct (Z.leb_spec 0 k) as [_|Hneg]; [|lia].
  rewrite firstn_all2 by (rewrite list_sort_reverse_length; lia).
  destruct (scan_keys q _ _ Hscan) as [<- _].
  apply Permutation_map, list_sort_reverse_perm.
Qed.

Lemma rank_returns_every_page_witness :
  dimension_is 3 (catalogs Sample.degenerate)
  /\ exists res,
       rank Sample.degenerate Sample.e1 2 = Ok res
       /\ Permutation (map match_key res)
                      [("Spring2024", 1%Z); ("Spring2024", 2%Z)].
Proof.
  assert (Hdim : dimension_is 3 (catalogs Sample.degenerate)).
  { unfold dimension_is. simpl. repeat constructor. }
  split; [exact Hdim|].
  apply (rank_returns_every_page Sample.degenerate Sample.e1 2 Hdim).
  simpl. lia.
Defined.

(** X3.  The answer for a smaller non-negative [top_k] is the beginning of the
    answer for a larger one. *)
Theorem rank_prefix (db : database) (q : vector) (k1 k2 : Z) :
  (0 <= k1 <= k2)%Z ->
  rank db q k1 = (res <- rank db q k2 ;; Ok (firstn (Z.to_nat k1) res)).
Proof.
  intros Hk. unfold rank, search_catalogs.
  destruct (scan q (catalogs db)) as [results|]; simpl; [|reflexivity].
  unfold slice_to.
  destruct (Z.leb_spec 0 k1); [|lia]. destruct (Z.leb_spec 0 k2); [|lia].
  rewrite firstn_firstn. f_equal. f_equal. lia.
Qed.

Lemma rank_prefix_witness :
  (0 <= 1 <= 3)%Z
  /\ exists res3,
       rank Sample.spring Sample.e1 3 = Ok res3
       /\ rank Sample.spring Sample.e1 1 = Ok (firstn 1 res3).
Proof.
  split; [lia|]. eexists. split; [vm_compute; reflexivity|].
  rewrite (rank_prefix Sample.spring Sample.e1 1 3) by lia.
  vm_compute. reflexivity.
Defined.

(** X4.  [top_k] is not checked: a negative [top_k] removes that many matches from
    the end of the complete ranking, and [top_k = 0] returns no match. *)
Theorem rank_negative_top_k (db : database) (q : vector) (k : Z) (full : list Match) :
  rank db q (Z.of_nat (total_pages (catalogs db))) = Ok full ->
  (k < 0)%Z ->
  rank db q k = Ok (firstn (List.length full - Z.to_nat (- k)) full)
  /\ rank db q 0 = Ok [].
Proof.
  unfold rank, search_catalogs.
  destruct (scan q (catalogs db)) as [results|] eqn:Hscan; simpl; [|discriminate].
  destruct (scan_keys q _ _ Hscan) as [_ Hlen].
  unfold slice_to. destruct (Z.leb_spec 0 (Z.of_nat (total_pages (catalogs db))));
    [|lia].
  rewrite Nat2Z.id, firstn_all2 by (rewrite list_sort_reverse_length; lia).
  intros Hfull Hk. injection Hfull as <-.
  destruct (Z.leb_spec 0 k); [lia|]. split; reflexivity.
Qed.

Lemma rank_negative_top_k_witness :
  exists full,
    rank Sample.spring Sample.e1 3 = Ok full
    /\ map match_key full
       = [("Spring2024", 1%Z); ("Spring2024", 2%Z); ("Spring2024", 3%Z)]
    /\ rank Sample.spring Sample.e1 (-1) = Ok (firstn 2 full).
Proof.
  destruct (rank Sample.spring Sample.e1 3) as [full|] eqn:Hfull;
    [|vm_compute in Hfull; discriminate].
  exists full.
  destruct (rank_negative_top_k Sample.spring Sample.e1 (-1) full Hfull)
    as [Hneg _]; [lia|].
  split; [reflexivity|].
  vm_compute in Hfull. injection Hfull as <-. split; [reflexivity | exact Hneg].
Defined.

(** ** What the matches are *)

Lemma score_page_match (q : vector) (cp : catalog * page) (m : Match) :
  score_page q (fst cp) (snd cp) = Ok m -> match_of q cp m.
Proof.
  unfold score_page, match_of.
  destruct (cosine_similarity q (embedding (snd cp))) as [s|]; simpl;
    [|discriminate].
  intros H. injection H as <-. simpl. repeat split; reflexivity.
Qed.

Lemma scan_matches (q : vector) (cats : list catalog) (results : list Match) :
  scan q cats = Ok results ->
  Forall2 (match_of q) (tagged_pages cats) results.
Proof.
  rewrite scan_flat. intros H. apply for_each_inv in H.
  induction H as [|cp m l ms Hm _ IH]; constructor; [|exact IH].
  apply score_page_match. exact Hm.
Qed.

Lemma Forall2_In_r {A B : Type} (R : A -> B -> Prop) (l : list A) (l' : list B) (y : B) :
  Forall2 R l l' -> In y l' -> exists x, In x l /\ R x y.
Proof.
  induction 1 as [|x y' l l' Hxy _ IH]; simpl; [contradiction|].
  intros [<-|Hy].
  - exists x. split; [left; reflexivity | exact Hxy].
  - destruct (IH Hy) as [x' [Hin Hx']]. exists x'. split; [right|]; assumption.
Qed.

(** X5.  Every match that [rank] returns is a page of the database: its catalog
    name, page number, image path and source file are those stored, and its
    score is the cosine similarity of the query and the stored vector. *)
Theorem rank_matches_stored_pages
  (db : database) (q : vector) (k : Z) (res : list Match) :
  rank db q k = Ok res ->
  forall m, In m res ->
    exists c p, In c (catalogs db) /\ In p (pages c) /\ match_of q (c, p) m.
Proof.
  unfold rank, search_catalogs.
  destruct (scan q (catalogs db)) as [results|] eqn:Hscan; simpl; [|discriminate].
  intros H m Hm. injection H as <-.
  destruct (slice_to_firstn (list_sort_reverse m_similarity results) k)
    as [n Hn]. rewrite Hn in Hm.
  assert (Hin : In m results).
  { apply (proj1 (list_sort_reverse_In m_similarity m results)).
    rewrite <- (firstn_skipn n (list_sort_reverse m_similarity results)).
    apply in_or_app. left. exact Hm. }
  destruct (Forall2_In_r _ _ _ m (scan_matches q _ _ Hscan) Hin)
    as [[c p] [Hcp Hmatch]].
  exists c, p. unfold tagged_pages in Hcp. apply in_flat_map in Hcp.
  destruct Hcp as [c' [Hc' Hp]]. apply in_map_iff in Hp.
  destruct Hp as [p' [Heq Hp']]. injection Heq as -> ->.
  split; [exact Hc'|]. split; [exact Hp' | exact Hmatch].
Qed.

Lemma rank_matches_stored_pages_witness :
  exists m,
    rank Sample.spring Sample.e3 1 = Ok [m]
    /\ exists c p,
         In c (catalogs Sample.spring) /\ In p (pages c) /\ match_of Sample.e3 (c, p) m.
Proof.
  destruct (rank Sample.spring Sample.e3 1) as [res|] eqn:Hres;
    [|vm_compute in Hres; discriminate].
  pose proof (rank_matches_stored_pages Sample.spring Sample.e3 1 res Hres) as H.
  vm_compute in Hres. injection Hres as <-.
  eexists. split; [reflexivity|]. apply H. left. reflexivity.
Defined.

(** ** Symmetry of the score *)

Lemma F64_mul_comm (x y : float) : F64.mul x y = F64.mul y x.
Proof.
  unfold F64.mul, SFmul. destruct x as [sx|sx| |sx mx ex], y as [sy|sy| |sy my ey];
    try reflexivity; try (rewrite (xorb_comm sx sy); reflexivity).
  rewrite (xorb_comm sx sy), (Pos.mul_comm mx my), (Z.add_comm ex ey).
  reflexivity.
Qed.

Lemma dot_kernel_comm (a b : vector) : dot_kernel a b = dot_kernel b a.
Proof.
  unfold dot_kernel. generalize F64.zero. revert b.
  induction a as [|x a IH]; intros [|y b] acc; simpl; try reflexivity.
  rewrite (F64_mul_comm x y). apply IH.
Qed.

(** X6.  The score does not depend on which of the two vectors is the query. *)
Theorem cosine_similarity_symmetric (a b : vector) :
  List.length a = List.length b ->
  cosine_similarity a b = cosine_similarity b a.
Proof.
  intros Hlen. unfold cosine_similarity, np_dot.
  rewrite Hlen, Nat.eqb_refl. simpl.
  rewrite (dot_kernel_comm a b), (F64_mul_comm (np_norm a) (np_norm b)).
  reflexivity.
Qed.

Lemma cosine_similarity_symmetric_witness :
  List.length [F64.one; F64.one; F64.zero] = List.length Sample.e1
  /\ cosine_similarity [F64.one; F64.one; F64.zero] Sample.e1
     = cosine_similarity Sample.e1 [F64.one; F64.one; F64.zero].
Proof.
  split; [reflexivity|].
  apply (cosine_similarity_symmetric [F64.one; F64.one; F64.zero] Sample.e1).
  reflexivity.
Defined.

(** ** When the search succeeds *)

Lemma scan_ok_dimension (q : vector) (cats : list catalog) (results : list Match) :
  scan q cats = Ok results -> dimension_is (List.length q) cats.
Proof.
  rewrite scan_flat. unfold dimension_is. rewrite all_pages_tagged.
  intros H. apply for_each_inv in H. rewrite Forall_map.
  induction H as [|cp m l ms Hm _ IH]; constructor; [|exact IH].
  apply (score_inv q cp m Hm).
Qed.


(** ** File names and catalog names *)

Lemma append_inj_l (s t u : string) : (s ++ t)%string = (s ++ u)%string -> t = u.
Proof. induction s as [|c s IH]; simpl; intros H; [exact H | injection H as H; auto]. Qed.

Lemma append_length (s t : string) :
  String.length (s ++ t) = String.length s + String.length t.
Proof. induction s as [|c s IH]; simpl; [reflexivity | rewrite IH; reflexivity]. Qed.

Lemma append_inj_r (s t u : string) : (s ++ u)%string = (t ++ u)%string -> s = t.
Proof.
  revert t. induction s as [|c s IH]; intros [|d t] H; simpl in H.
  - reflexivity.
  - apply (f_equal String.length) in H. simpl in H. rewrite append_length in H. lia.
  - apply (f_equal String.length) in H. simpl in H. rewrite append_length in H. lia.
  - injection H as -> H. f_equal. apply IH. exact H.
Qed.

Lemma nat_str_nonempty (n : nat) : exists c t, nat_str n = String c t.
Proof.
  unfold nat_str. assert (H : Nat.to_uint n <> Decimal.Nil).
  { rewrite <- (DecimalNat.Unsigned.of_to n) at 1.
    rewrite DecimalNat.Unsigned.to_of. apply DecimalFacts.unorm_nonnil. }
  destruct (Nat.to_uint n); try congruence; simpl; do 2 eexists; reflexivity.
Qed.

Lemma parse_decimal_nat_str (n : nat) : parse_decimal (nat_str n) = Some n.
Proof.
  unfold parse_decimal, nat_str. rewrite NilZero.usu.
  - simpl. rewrite DecimalNat.Unsigned.of_to. reflexivity.
  - rewrite <- (DecimalNat.Unsigned.of_to n) at 1.
    rewrite DecimalNat.Unsigned.to_of. apply DecimalFacts.unorm_nonnil.
Qed.

Lemma parse_decimal_zeros (k : nat) (c : ascii) (t : string) :
  parse_decimal (string_of_list_ascii (repeat "0"%char k) ++ String c t)
  = parse_decimal (String c t).
Proof.
  induction k as [|k IH]; [reflexivity|].
  unfold parse_decimal in *. simpl repeat. simpl string_of_list_ascii.
  simpl String.append.
  destruct (string_of_list_ascii (repeat "0"%char k) ++ String c t)%string
    as [|c' t'] eqn:Hrest.
  - destruct k; discriminate.
  - simpl in IH |- *. rewrite <- IH.
    destruct (uint_of_char c' (NilEmpty.uint_of_string t')); reflexivity.
Qed.

(** The page number can be read back from the digits of the file name. *)
Lemma parse_decimal_format_03d (n : Z) :
  (0 <= n)%Z -> parse_decimal (format_03d n) = Some (Z.to_nat n).
Proof.
  intros Hn. unfold format_03d. destruct (Z.ltb_spec n 0); [lia|].
  unfold zero_pad. destruct (nat_str_nonempty (Z.to_nat n)) as [c [t Hct]].
  rewrite Hct, parse_decimal_zeros, <- Hct. apply parse_decimal_nat_str.
Qed.

Lemma image_path_inj (dir : string) (n m : Z) :
  (0 <= n)%Z -> (0 <= m)%Z ->
  os_path_join dir ("page_" ++ format_03d n ++ ".jpg")
  = os_path_join dir ("page_" ++ format_03d m ++ ".jpg") ->
  n = m.
Proof.
  intros Hn Hm. unfold os_path_join. simpl String.prefix.
  intros H.
  assert (Hfmt : format_03d n = format_03d m).
  { destruct (orb _ _).
    - apply append_inj_l in H. simpl in H. injection H as H.
      apply append_inj_r in H. exact H.
    - apply append_inj_l in H. simpl in H. injection H as H.
      apply append_inj_r in H. exact H. }
  apply (f_equal parse_decimal) in Hfmt.
  rewrite !parse_decimal_format_03d in Hfmt by assumption.
  injection Hfmt as Hfmt. lia.
Qed.

Lemma after_first_dash_app (p r : string) :
  no_dash p = true -> after_first_dash (p ++ String "-" r) = Some r.
Proof.
  induction p as [|c p IH]; simpl; [reflexivity|].
  destruct (Ascii.eqb c "-"); simpl; [discriminate | exact IH].
Qed.

Lemma after_first_dash_none (s t : string) :
  no_dash s = true -> no_dash t = true -> after_first_dash (s ++ t) = None.
Proof.
  intros Hs Ht. induction s as [|c s IH]; simpl in *.
  - induction t as [|d t IHt]; simpl in *; [reflexivity|].
    destruct (Ascii.eqb d "-"); simpl in *; [discriminate | auto].
  - destruct (Ascii.eqb c "-"); simpl in *; [discriminate | auto].
Qed.

Lemma prefix_head_neq (a c : ascii) (p t : string) :
  a <> c -> String.prefix (String a p) (String c t) = false.
Proof.
  intros Hneq.
  change (String.prefix (String a p) (String c t))
    with (if ascii_dec a c then String.prefix p t else false).
  destruct (ascii_dec a c); [contradiction | reflexivity].
Qed.

Lemma remove_dot_pdf_from_cons (c : ascii) (t : string) :
  c <> "."%char ->
  remove_dot_pdf_from 0 (String c t) = String c (remove_dot_pdf_from 0 t).
Proof.
  intros Hneq.
  change (remove_dot_pdf_from 0 (String c t))
    with (if String.prefix ".pdf" (String c t) then remove_dot_pdf_from 3 t
          else String c (remove_dot_pdf_from 0 t)).
  rewrite prefix_head_neq by congruence. reflexivity.
Qed.

Lemma remove_dot_pdf_stem (stem : string) :
  no_dot stem = true -> remove_dot_pdf (stem ++ ".pdf") = stem.
Proof.
  unfold remove_dot_pdf. induction stem as [|c stem IH]; [reflexivity|].
  cbn [no_dot String.append]. intros H. apply andb_true_iff in H.
  destruct H as [Hc H]. apply negb_true_iff in Hc.
  rewrite remove_dot_pdf_from_cons.
  - rewrite (IH H). reflexivity.
  - intros ->. discriminate.
Qed.

(** X9.  For a document named [<prefix>-<stem>.pdf], with no dash in the prefix
    and no dot in the stem, the catalog name is the stem: the prefix is
    dropped, so documents that differ in the prefix only get the same name.
    Without any dash the name is the stem as well. *)
Theorem catalog_name_of_stem (prefix stem : string) :
  no_dash prefix = true ->
  no_dot stem = true ->
  catalog_name_of (prefix ++ "-" ++ stem ++ ".pdf") = stem
  /\ (no_dash stem = true -> catalog_name_of (stem ++ ".pdf") = stem).
Proof.
  intros Hp Hs. unfold catalog_name_of. split.
  - change (prefix ++ "-" ++ stem ++ ".pdf")%string
      with (prefix ++ String "-" (stem ++ ".pdf"))%string.
    rewrite (after_first_dash_app _ _ Hp). apply remove_dot_pdf_stem. exact Hs.
  - intros Hd. rewrite (after_first_dash_none stem ".pdf" Hd eq_refl).
    apply remove_dot_pdf_stem. exact Hs.
Qed.

Lemma catalog_name_of_stem_witness :
  no_dash "2023" = true /\ no_dot "Catalogo-Primavera" = true
  /\ catalog_name_of "2023-Catalogo-Primavera.pdf" = "Catalogo-Primavera".
Proof.
  split; [reflexivity|]. split; [reflexivity|].
  apply (catalog_name_of_stem "2023" "Catalogo-Primavera"); reflexivity.
Defined.

(** ** The generator as a whole *)

Lemma save_complete (chunks : list string) (disk : option string) :
  save chunks disk = Some (join chunks).
Proof.
  unfold save, save_ops. simpl.
  pose proof (run_json_dump chunks (List.length (json_dump chunks ++ [Close]))
                EmptyString) as H.
  rewrite firstn_all in H. simpl in H.
  rewrite firstn_all2 in H
    by (unfold json_dump; rewrite length_app, length_map; simpl; lia).
  destruct disk; exact H.
Qed.

Lemma enumerate_NoDup {A : Type} (l : list A) (start : Z) :
  NoDup (map fst (enumerate l start)).
Proof.
  revert start. induction l as [|x l IH]; intros start; simpl; constructor.
  - intros Hin. destruct (enumerate_numbers l (start + 1)%Z) as [_ [Hge _]].
    rewrite Forall_forall in Hge. apply Hge in Hin. lia.
  - apply IH.
Qed.

Lemma NoDup_map_in {A B : Type} (f : A -> B) (l : list A) :
  (forall x y, In x l -> In y l -> f x = f y -> x = y) ->
  NoDup l -> NoDup (map f l).
Proof.
  intros Hinj Hl. induction Hl as [|x l Hx Hl IH]; simpl; constructor.
  - intros Hin. apply in_map_iff in Hin. destruct Hin as [y [Hxy Hy]].
    assert (y = x) by (apply Hinj; [right; exact Hy | left; reflexivity | exact Hxy]).
    subst y. contradiction.
  - apply IH. intros a b Ha Hb. apply Hinj; right; assumption.
Qed.

Section GeneratorFacts.

Variable image : Type.
Variable convert_from_path : string -> result (list image).
Variable thumbnail : image -> result image.
Variable save_jpeg : image -> string -> result unit.
Variable encode : image -> result vector.
Variable makedirs : string -> result unit.
Variable iterencode : database -> list string.

Let do_page := process_page image thumbnail save_jpeg encode.
Let do_pages := process_pages image convert_from_path thumbnail save_jpeg encode.
Let do_pdf :=
  process_pdf image convert_from_path thumbnail save_jpeg encode makedirs.
Let run_from :=
  ingest_from image convert_from_path thumbnail save_jpeg encode makedirs.
Let run := ingest image convert_from_path thumbnail save_jpeg encode makedirs.
Let run_all :=
  generate image convert_from_path thumbnail save_jpeg encode makedirs iterencode.
Let processed :=
  processed_catalogs image convert_from_path thumbnail save_jpeg encode.
Let stored := stored_page image thumbnail encode.

Lemma process_page_stored (dir : string) (numbered : Z * image) (p : page) :
  do_page dir numbered = Ok p -> stored dir numbered p.
Proof.
  unfold do_page, process_page, stored, stored_page.
  destruct numbered as [n img].
  destruct (thumbnail img) as [r|] eqn:Hr; simpl; [|discriminate].
  destruct (save_jpeg r _); simpl; [|discriminate].
  destruct (encode r) as [v|] eqn:Hv; simpl; [|discriminate].
  intros H. injection H as <-. simpl. split; [reflexivity|].
  split; [reflexivity|]. exists r. split; [exact Hr | exact Hv].
Qed.

(** X10.  A document is stored with all of its pages or not at all: when the
    [try] ends without an exception, there is one page record for each page
    of the rasterized document, in order, with the number of the page, the
    path [<catalog_dir>/page_<number, three digits>.jpg] and the embedding of
    the resized page. *)
Theorem process_pages_stores_every_page
  (pdf_path dir : string) (ps : list page) :
  do_pages pdf_path dir = Ok ps ->
  exists images,
    convert_from_path pdf_path = Ok images
    /\ List.length ps = List.length images
    /\ Forall2 (stored dir) (enumerate images 1) ps.
Proof.
  unfold do_pages, process_pages.
  destruct (convert_from_path pdf_path) as [images|]; simpl; [|discriminate].
  intros H. exists images. split; [reflexivity|].
  apply for_each_inv in H.
  assert (Hlen : forall (A : Type) (l : list A) s,
            List.length (enumerate l s) = List.length l).
  { intros A l. induction l as [|x l IH]; intros s; simpl; [reflexivity|].
    rewrite IH. reflexivity. }
  split.
  - rewrite <- (Hlen _ images 1%Z). symmetry. apply (Forall2_length H).
  - apply (Forall2_impl (R1 := fun x y => do_page dir x = Ok y)); [|exact H].
    intros numbered p. apply process_page_stored.
Qed.

(** The catalogs of a run come from the documents of that run. *)
Lemma ingest_from_origin (pdf_files : list string) (db0 db : database) (c : catalog) :
  run_from db0 pdf_files = Ok db ->
  In c (catalogs db) ->
  In c (catalogs db0)
  \/ exists pdf_path ps,
       In pdf_path pdf_files
       /\ do_pages pdf_path (catalog_dir_of pdf_path) = Ok ps
       /\ c = catalog_of pdf_path ps.
Proof.
  revert db0. induction pdf_files as [|p l IH]; intros db0.
  - intros H. injection H as <-. left. assumption.
  - unfold run_from. rewrite ingest_from_cons. fold run_from.
    unfold process_pdf. fold (catalog_dir_of p).
    destruct (makedirs (catalog_dir_of p)); simpl; [|discriminate].
    fold do_pages.
    destruct (do_pages p (catalog_dir_of p)) as [ps|] eqn:Hps; simpl.
    + intros H Hc. destruct (IH _ H Hc) as [Hin|[p' [ps' [Hp' H']]]].
      * simpl in Hin. apply in_app_or in Hin. destruct Hin as [Hin|[<-|[]]].
        -- left. exact Hin.
        -- right. exists p, ps. split; [left; reflexivity|].
           split; [exact Hps | reflexivity].
      * right. exists p', ps'. split; [right; exact Hp' | exact H'].
    + intros H Hc. destruct (IH _ H Hc) as [Hin|[p' [ps' [Hp' H']]]].
      * left. exact Hin.
      * right. exists p', ps'. split; [right; exact Hp' | exact H'].
Qed.

Lemma process_pages_paths (dir : string) (l : list (Z * image)) (ps : list page) :
  Forall2 (fun numbered p => do_page dir numbered = Ok p) l ps ->
  map image_path ps
  = map (fun n => os_path_join dir ("page_" ++ format_03d n ++ ".jpg"))
        (map fst l).
Proof.
  induction 1 as [|numbered pg l ps Hpg _ IH]; simpl; [reflexivity|].
  destruct (process_page_stored _ _ _ Hpg) as [_ [-> _]].
  rewrite IH. reflexivity.
Qed.

(** X11.  Within a catalog that a run produces, no two pages have the same image
    path. *)
Theorem ingest_image_paths_unique
  (now : string) (pdf_files : list string) (db : database) :
  run now pdf_files = Ok db ->
  Forall (fun c => NoDup (map image_path (pages c))) (catalogs db).
Proof.
  intros H. apply Forall_forall. intros c Hc.
  destruct (ingest_from_origin pdf_files (empty_database now) db c H Hc)
    as [[]|[p [ps [_ [Hps ->]]]]].
  simpl.
  unfold do_pages, process_pages in Hps.
  destruct (convert_from_path p) as [images|]; simpl in Hps; [|discriminate].
  apply for_each_inv in Hps.
  rewrite (process_pages_paths _ _ _ Hps). apply NoDup_map_in; [|apply enumerate_NoDup].
  destruct (enumerate_numbers images 1) as [_ [Hge _]].
  rewrite Forall_forall in Hge.
  intros n m Hn Hm. apply image_path_inj.
  - apply Hge in Hn. lia.
  - apply Hge in Hm. lia.
Qed.

Lemma ingest_from_processed (pdf_files : list string) (db : database) :
  (forall p, In p pdf_files -> makedirs (catalog_dir_of p) = Ok tt) ->
  run_from db pdf_files
  = Ok {| version := version db;
          model := model db;
          created := created db;
          catalogs := catalogs db ++ processed pdf_files |}.
Proof.
  revert db. induction pdf_files as [|p l IH]; intros db Hdirs.
  - unfold processed. simpl. rewrite app_nil_r. destruct db; reflexivity.
  - unfold run_from. rewrite ingest_from_cons. fold run_from.
    unfold process_pdf. fold (catalog_dir_of p).
    rewrite (Hdirs p (or_introl eq_refl)). simpl.
    unfold processed, processed_catalogs. simpl flat_map.
    fold (processed_catalogs image convert_from_path thumbnail save_jpeg encode l).
    fold processed.
    destruct (process_pages image convert_from_path thumbnail save_jpeg encode
                p (catalog_dir_of p)) as [ps|]; simpl.
    + rewrite IH by (intros p' Hp'; apply Hdirs; right; exact Hp').
      simpl. rewrite <- app_assoc. reflexivity.
    + apply IH. intros p' Hp'. apply Hdirs. right. exact Hp'.
Qed.

(** X12.  When every output directory can be created, the run produces the version
    and model of the script, the timestamp of the run, and exactly one
    catalog for each document that is processed without an exception, in the
    order in which [glob] listed the documents. *)
Theorem ingest_appends_processed_catalogs
  (now : string) (pdf_files : list string) :
  (forall p, In p pdf_files -> makedirs (catalog_dir_of p) = Ok tt) ->
  run now pdf_files
  = Ok {| version := "1.0";
          model := "clip-ViT-B-32";
          created := now;
          catalogs := processed pdf_files |}.
Proof.
  intros Hdirs. unfold run, ingest. fold run_from.
  rewrite (ingest_from_processed pdf_files (empty_database now) Hdirs).
  reflexivity.
Qed.

(** X13.  When an output directory cannot be created, the exception is not caught:
    the run ends there, nothing is saved, and the artifact on disk is the one
    of the previous run. *)
Theorem generate_crash_keeps_artifact
  (now : string) (before after : list string) (pdf_path : string)
  (e : exn) (disk : option string) :
  (forall p, In p before -> makedirs (catalog_dir_of p) = Ok tt) ->
  makedirs (catalog_dir_of pdf_path) = Raise e ->
  run_all now (before ++ pdf_path :: after) disk = (Raise e, disk).
Proof.
  intros Hdirs Hfail. unfold run_all, generate, ingest. fold run_from.
  unfold run_from. rewrite ingest_from_app. fold run_from.
  rewrite (ingest_from_processed before (empty_database now) Hdirs). simpl.
  unfold run_from. rewrite ingest_from_cons.
  unfold process_pdf at 1. fold (catalog_dir_of pdf_path). rewrite Hfail.
  reflexivity.
Qed.

(** X14.  A run that ends normally replaces the artifact by the serialisation of
    the database of that run: nothing of the previous artifact is read or
    kept. *)
Theorem generate_replaces_artifact
  (now : string) (pdf_files : list string) (disk : option string) :
  (forall p, In p pdf_files -> makedirs (catalog_dir_of p) = Ok tt) ->
  let db := {| version := "1.0";
               model := "clip-ViT-B-32";
               created := now;
               catalogs := processed pdf_files |} in
  run_all now pdf_files disk = (Ok db, Some (join (iterencode db))).
Proof.
  intros Hdirs db. unfold run_all, generate, ingest. fold run_from.
  rewrite (ingest_from_processed pdf_files (empty_database now) Hdirs).
  simpl. rewrite save_complete. reflexivity.
Qed.

End GeneratorFacts.

Lemma process_pages_stores_every_page_witness :
  exists ps,
    process_pages Sample.image Sample.convert_from_path Sample.thumbnail
      Sample.save_jpeg Sample.encode (Sample.kb "2023-Catalogo.pdf") "out" = Ok ps
    /\ map image_path ps = ["out/page_001.jpg"; "out/page_002.jpg"]
    /\ exists images,
         Sample.convert_from_path (Sample.kb "2023-Catalogo.pdf") = Ok images
         /\ List.length ps = List.length images.
Proof.
  destruct (process_pages Sample.image Sample.convert_from_path Sample.thumbnail
              Sample.save_jpeg Sample.encode (Sample.kb "2023-Catalogo.pdf") "out")
    as [ps|] eqn:Hps; [|vm_compute in Hps; discriminate].
  destruct (process_pages_stores_every_page _ _ _ _ _ _ _ ps Hps)
    as [images [Himages [Hlen _]]].
  exists ps. split; [reflexivity|].
  split; [vm_compute in Hps; injection Hps as <-; reflexivity|].
  exists images. split; [exact Himages | exact Hlen].
Defined.

Lemma ingest_image_paths_unique_witness :
  exists db,
    Sample.ingest "2024-03-01T00:00:00" [Sample.kb "2023-Catalogo.pdf"] = Ok db
    /\ Forall (fun c => NoDup (map image_path (pages c))) (catalogs db).
Proof.
  eexists. split; [vm_compute; reflexivity|].
  apply (ingest_image_paths_unique
           Sample.image Sample.convert_from_path Sample.thumbnail
           Sample.save_jpeg Sample.encode Sample.makedirs
           "2024-03-01T00:00:00" [Sample.kb "2023-Catalogo.pdf"]).
  vm_compute. reflexivity.
Defined.

Lemma ingest_appends_processed_catalogs_witness :
  let files := [Sample.kb "2023-Catalogo.pdf"; Sample.kb "scan.pdf";
                Sample.kb "2024-Catalogo.pdf"] in
  (forall p, In p files -> Sample.makedirs (catalog_dir_of p) = Ok tt)
  /\ exists db,
       Sample.ingest "2024-03-01T00:00:00" files = Ok db
       /\ map source_file (catalogs db) = ["2023-Catalogo.pdf"; "2024-Catalogo.pdf"].
Proof.
  intros files.
  assert (Hdirs : forall p, In p files -> Sample.makedirs (catalog_dir_of p) = Ok tt)
    by (intros p _; reflexivity).
  split; [exact Hdirs|].
  eexists. split.
  - apply (ingest_appends_processed_catalogs
             Sample.image Sample.convert_from_path Sample.thumbnail
             Sample.save_jpeg Sample.encode Sample.makedirs
             "2024-03-01T00:00:00" files Hdirs).
  - vm_compute. reflexivity.
Defined.

Lemma generate_crash_keeps_artifact_witness :
  let run := generate Sample.image Sample.convert_from_path Sample.thumbnail
               Sample.save_jpeg Sample.encode Sample.makedirs_denied
               Sample.iterencode "2024-03-01T00:00:00" in
  Sample.makedirs_denied (catalog_dir_of (Sample.kb "2024-Catalogo.pdf"))
  = Raise (External "[Errno 13] Permission denied")
  /\ run [Sample.kb "2023-Catalogo.pdf"; Sample.kb "2024-Catalogo.pdf"]
         (Some "previous artifact")
     = (Raise (External "[Errno 13] Permission denied"), Some "previous artifact").
Proof.
  split; [reflexivity|].
  apply (generate_crash_keeps_artifact
           Sample.image Sample.convert_from_path Sample.thumbnail
           Sample.save_jpeg Sample.encode Sample.makedirs_denied
           Sample.iterencode "2024-03-01T00:00:00"
           [Sample.kb "2023-Catalogo.pdf"] []
           (Sample.kb "2024-Catalogo.pdf")).
  - intros p [<-|[]]. reflexivity.
  - reflexivity.
Defined.

Lemma generate_replaces_artifact_witness :
  let files := [Sample.kb "missing.pdf"] in
  (forall p, In p files -> Sample.makedirs (catalog_dir_of p) = Ok tt)
  /\ generate Sample.image Sample.convert_from_path Sample.thumbnail
       Sample.save_jpeg Sample.encode Sample.makedirs Sample.iterencode
       "2024-03-01T00:00:00" files (Some "previous artifact")
     = (Ok Sample.empty, Some (join Sample.empty_chunks)).
Proof.
  intros files.
  assert (Hdirs : forall p, In p files -> Sample.makedirs (catalog_dir_of p) = Ok tt)
    by (intros p _; reflexivity).
  split; [exact Hdirs|].
  apply (generate_replaces_artifact
           Sample.image Sample.convert_from_path Sample.thumbnail
           Sample.save_jpeg Sample.encode Sample.makedirs Sample.iterencode
           "2024-03-01T00:00:00" files (Some "previous artifact") Hdirs).
Defined.

(** ** The command line *)

Lemma main_success_inv (f : file) (query : result vector) (k : Z)
  (n : nat) (res : list Match) (status : Z) :
  main f query k = (Success n res, status) ->
  status = 0%Z
  /\ exists results,
       n = List.length results
       /\ res = slice_to (list_sort_reverse m_similarity results) k.
Proof.
  unfold main. destruct (negb (os_path_exists f)); [discriminate|].
  destruct query as [q|e]; simpl; [|discriminate].
  unfold search, search_catalogs.
  destruct (json_load f) as [a|]; simpl; [|discriminate].
  destruct (getitem_catalogs a) as [cats|]; simpl; [|discriminate].
  destruct (scan q cats) as [results|]; simpl; [|discriminate].
  intros H. injection H as <- <- <-. split; [reflexivity|].
  exists results. split; reflexivity.
Qed.

Lemma after_first_comma_app (h r : string) :
  no_comma h = true -> after_first_comma (h ++ String "," r) = Some r.
Proof.
  induction h as [|c h IH]; simpl; [reflexivity|].
  destruct (Ascii.eqb c ","); simpl; [discriminate | exact IH].
Qed.

Lemma after_first_comma_none (s : string) :
  no_comma s = true -> after_first_comma s = None.
Proof.
  induction s as [|c s IH]; simpl; [reflexivity|].
  destruct (Ascii.eqb c ","); simpl; [discriminate | exact IH].
Qed.

Section CommandLineFacts.

Variable image : Type.
Variable int : string -> result Z.
Variable strip : string -> string.
Variable b64decode : string -> result string.
Variable Image_open_bytes : string -> result image.
Variable Image_open : string -> result image.
Variable path_exists : string -> bool.
Variable encode_query : image -> result vector.

Let load := load_image image b64decode Image_open_bytes Image_open path_exists.
Let cli :=
  main_cli image int strip b64decode Image_open_bytes Image_open path_exists
    encode_query.

(** X16.  Of a data URL only the text after the first comma is used: it is decoded
    as base64 and opened, whatever the header declares, and the file system
    is not consulted. *)
Theorem load_image_data_url (header payload : string) :
  no_comma header = true ->
  load ("data:image" ++ header ++ "," ++ payload)
  = (image_bytes <- b64decode payload ;; Image_open_bytes image_bytes).
Proof.
  intros Hh. unfold load, load_image.
  change ("data:image" ++ header ++ "," ++ payload)%string
    with ("data:image" ++ (header ++ String "," payload))%string.
  assert (Hprefix : forall t, String.prefix "data:image" ("data:image" ++ t) = true).
  { intros t. simpl. repeat (destruct (ascii_dec _ _); [|congruence]).
    destruct t; reflexivity. }
  rewrite Hprefix.
  assert (Hsplit : after_first_comma ("data:image" ++ (header ++ String "," payload))
                   = Some payload).
  { simpl. apply after_first_comma_app. exact Hh. }
  rewrite Hsplit. reflexivity.
Qed.

(** X17.  Without a [top_k] argument the script behaves as with [top_k = 5] and
    prints at most five matches. *)
Theorem main_cli_default_top_k (prog arg1 stdin : string) (f : file) :
  (forall arg2, int arg2 = Ok 5%Z ->
     cli [prog; arg1; arg2] stdin f = cli [prog; arg1] stdin f)
  /\ (forall n res status,
        cli [prog; arg1] stdin f = Exit (Success n res) status ->
        status = 0%Z /\ List.length res <= 5).
Proof.
  split.
  - intros arg2 H. unfold cli, main_cli. rewrite H. reflexivity.
  - intros n res status. unfold cli, main_cli.
    destruct (main f _ 5) as [out st] eqn:Hmain.
    intros H. injection H as -> ->.
    destruct (main_success_inv _ _ _ _ _ _ Hmain) as [-> [results [_ ->]]].
    split; [reflexivity|].
    unfold slice_to. change (0 <=? 5)%Z with true. cbv iota.
    rewrite length_firstn. apply Nat.le_min_l.
Qed.


(** X19.  Passing the image on standard input is the same as passing the stripped
    text as the argument. *)
Theorem main_cli_stdin (prog : string) (rest : list string) (stdin other : string)
  (f : file) :
  strip stdin <> "--stdin" ->
  cli (prog :: "--stdin" :: rest) stdin f = cli (prog :: strip stdin :: rest) other f.
Proof.
  intros H. unfold cli, main_cli.
  apply String.eqb_neq in H. rewrite H. reflexivity.
Qed.

(** X20.  A data URL without a comma is reported as an error document with status
    1: the unpacking of the split fails inside the [try]. *)
Theorem main_cli_data_url_without_comma (prog url stdin : string) (f : file) :
  String.prefix "data:image" url = true ->
  no_comma url = true ->
  os_path_exists f = true ->
  cli [prog; url] stdin f
  = Exit (Error "not enough values to unpack (expected 2, got 1)") 1%Z.
Proof.
  intros Hprefix Hcomma Hf. unfold cli, main_cli.
  assert (Hurl : String.eqb url "--stdin" = false).
  { apply String.eqb_neq. intros ->. discriminate. }
  rewrite Hurl. unfold main. rewrite Hf. simpl negb. cbv iota.
  unfold query_stage, load_image.
  rewrite Hprefix, (after_first_comma_none url Hcomma). reflexivity.
Qed.

End CommandLineFacts.

Lemma load_image_data_url_witness :
  no_comma "/png;base64" = true
  /\ load_image vector Sample.b64decode Sample.Image_open_bytes Sample.Image_open
       Sample.path_exists "data:image/png;base64,QUJD"
     = Ok Sample.e1.
Proof.
  split; [reflexivity|].
  apply (load_image_data_url vector Sample.b64decode Sample.Image_open_bytes
           Sample.Image_open Sample.path_exists "/png;base64" "QUJD").
  reflexivity.
Defined.


Lemma main_cli_stdin_witness :
  Sample.strip "QUJD" <> "--stdin"
  /\ Sample.main_cli ["visual-search.py"; "--stdin"; "2"] "QUJD"
       (Document (artifact_of Sample.spring))
     = Sample.main_cli ["visual-search.py"; "QUJD"; "2"] EmptyString
         (Document (artifact_of Sample.spring)).
Proof.
  assert (H : Sample.strip "QUJD" <> "--stdin") by discriminate.
  split; [exact H|].
  apply (main_cli_stdin vector Sample.int Sample.strip Sample.b64decode
           Sample.Image_open_bytes Sample.Image_open Sample.path_exists
           Sample.encode_query "visual-search.py" ["2"] "QUJD" EmptyString
           (Document (artifact_of Sample.spring)) H).
Defined.

Lemma main_cli_data_url_without_comma_witness :
  String.prefix "data:image" "data:image/png;base64" = true
  /\ no_comma "data:image/png;base64" = true
  /\ Sample.main_cli ["visual-search.py"; "data:image/png;base64"] EmptyString
       (Document (artifact_of Sample.spring))
     = Exit (Error "not enough values to unpack (expected 2, got 1)") 1%Z.
Proof.
  split; [reflexivity|]. split; [reflexivity|].
  apply (main_cli_data_url_without_comma vector Sample.int Sample.strip
           Sample.b64decode Sample.Image_open_bytes Sample.Image_open
           Sample.path_exists Sample.encode_query); reflexivity.
Defined.

(** ** From the generator to the search *)

Lemma rank_In_results (db : database) (q : vector) (k : Z) (res : list Match) :
  rank db q k = Ok res ->
  exists results,
    scan q (catalogs db) = Ok results /\ forall m, In m res -> In m results.
Proof.
  unfold rank, search_catalogs.
  destruct (scan q (catalogs db)) as [results|]; simpl; [|discriminate].
  intros H. injection H as <-. exists results. split; [reflexivity|].
  intros m Hm.
  destruct (slice_to_firstn (list_sort_reverse m_similarity results) k)
    as [n Hn]. rewrite Hn in Hm.
  apply (proj1 (list_sort_reverse_In m_similarity m results)).
  rewrite <- (firstn_skipn n (list_sort_reverse m_similarity results)).
  apply in_or_app. left. exact Hm.
Qed.

Section EndToEnd.

Variable image : Type.
Variable convert_from_path : string -> result (list image).
Variable thumbnail : image -> result image.
Variable save_jpeg : image -> string -> result unit.
Variable encode : image -> result vector.
Variable makedirs : string -> result unit.

(** X15.  Searching the database of a run returns only pages of the documents of
    that run: the source file of a match is the name of one of the
    documents, its catalog name is derived from that name, its page number
    is at least 1, and its image path is the path under which the generator
    saved the image of that page. *)
Theorem rank_matches_generated_pages
  (now : string) (pdf_files : list string) (db : database)
  (q : vector) (k : Z) (res : list Match) :
  ingest image convert_from_path thumbnail save_jpeg encode makedirs
    now pdf_files = Ok db ->
  rank db q k = Ok res ->
  forall m, In m res ->
    exists pdf_path,
      In pdf_path pdf_files
      /\ m_source_file m = os_path_basename pdf_path
      /\ m_catalog m = catalog_name_of (os_path_basename pdf_path)
      /\ (1 <= m_page_number m)%Z
      /\ m_image_path m
         = os_path_join (catalog_dir_of pdf_path)
             ("page_" ++ format_03d (m_page_number m) ++ ".jpg").
Proof.
  intros Hdb Hres m Hm.
  destruct (rank_In_results db q k res Hres) as [results [Hscan Hin]].
  destruct (Forall2_In_r _ _ _ m (scan_matches q _ _ Hscan) (Hin m Hm))
    as [[c p] [Hcp [Hname [Hnum [Hpath [Hsrc _]]]]]].
  simpl in Hname, Hnum, Hpath, Hsrc.
  unfold tagged_pages in Hcp. apply in_flat_map in Hcp.
  destruct Hcp as [c' [Hc Hp]]. apply in_map_iff in Hp.
  destruct Hp as [p' [Heq Hp]]. injection Heq as -> ->.
  destruct (ingest_from_origin image convert_from_path thumbnail save_jpeg encode
              makedirs pdf_files (empty_database now) db c Hdb Hc)
    as [[]|[pdf_path [ps [Hfile [Hps ->]]]]].
  simpl in Hp, Hname, Hsrc.
  unfold process_pages in Hps.
  destruct (convert_from_path pdf_path) as [images|]; simpl in Hps; [|discriminate].
  apply for_each_inv in Hps.
  destruct (Forall2_In_r _ _ _ p Hps Hp) as [numbered [Hnumbered Hpage]].
  apply (process_page_stored image thumbnail save_jpeg encode) in Hpage.
  destruct Hpage as [Hn [Hip _]].
  exists pdf_path. split; [exact Hfile|]. split; [exact Hsrc|].
  split; [exact Hname|]. rewrite Hnum, Hpath, Hn. split; [|exact Hip].
  destruct (enumerate_numbers images 1) as [_ [Hge _]].
  rewrite Forall_forall in Hge. apply Hge.
  apply in_map. exact Hnumbered.
Qed.

End EndToEnd.

Lemma rank_matches_generated_pages_witness :
  exists db res m,
    Sample.ingest "2024-03-01T00:00:00" [Sample.kb "2023-Catalogo.pdf"] = Ok db
    /\ rank db Sample.e2 1 = Ok res
    /\ In m res
    /\ m_image_path m
       = "/opt/flow-builder/data/catalog-images/2023-Catalogo/page_002.jpg".
Proof.
  destruct (Sample.ingest "2024-03-01T00:00:00" [Sample.kb "2023-Catalogo.pdf"])
    as [db|] eqn:Hdb; [|vm_compute in Hdb; discriminate].
  destruct (rank db Sample.e2 1) as [res|] eqn:Hres.
  2: { vm_compute in Hdb. injection Hdb as <-. vm_compute in Hres. discriminate. }
  destruct res as [|m res].
  { vm_compute in Hdb. injection Hdb as <-. vm_compute in Hres. discriminate. }
  exists db, (m :: res), m. split; [reflexivity|]. split; [exact Hres|].
  split; [left; reflexivity|].
  destruct (rank_matches_generated_pages
              Sample.image Sample.convert_from_path Sample.thumbnail
              Sample.save_jpeg Sample.encode Sample.makedirs
              "2024-03-01T00:00:00" [Sample.kb "2023-Catalogo.pdf"] db
              Sample.e2 1 (m :: res) Hdb Hres m (or_introl eq_refl))
    as [pdf_path [[<-|[]] [_ [_ [_ Hpath]]]]].
  rewrite Hpath.
  vm_compute in Hdb. injection Hdb as <-.
  vm_compute in Hres. injection Hres as <- <-. reflexivity.
Defined.

(** ** Which shape error is reported *)

(** X8.  The scan stops at the first stored vector whose length differs from the
    length of the query: [main] prints NumPy's error for that vector and
    exits with status 1, whatever follows in the database. *)
Theorem main_reports_first_mismatch
  (db : database) (q : vector) (k : Z) (before after : list page) (p : page) :
  all_pages (catalogs db) = before ++ p :: after ->
  Forall (fun p' => List.length (embedding p') = List.length q) before ->
  List.length (embedding p) <> List.length q ->
  main (Document (artifact_of db)) (Ok q) k
  = (Error (str (ValueError_shapes (List.length q) (List.length (embedding p)))),
     1%Z).
Proof.
  intros Hpages Hbefore Hp.
  rewrite (main_of_scan db q k
             (Raise (ValueError_shapes (List.length q) (List.length (embedding p)))));
    [reflexivity|].
  rewrite scan_flat. rewrite all_pages_tagged in Hpages.
  apply map_eq_app in Hpages.
  destruct Hpages as [tb [rest [Htagged [Htb Hrest]]]].
  destruct rest as [|tp ta]; [discriminate|]. simpl in Hrest.
  injection Hrest as Htp _. subst before p. rewrite Htagged, for_each_app.
  rewrite Forall_map in Hbefore.
  assert (Hok : Forall (fun cp => exists m,
                          score_page q (fst cp) (snd cp) = Ok m) tb).
  { apply (Forall_impl _ (P := fun cp =>
             List.length (embedding (snd cp)) = List.length q)); [|exact Hbefore].
    intros cp Hcp. destruct (score_ok q cp Hcp) as [m [Hm _]]. exists m. exact Hm. }
  destruct (for_each_ok _ tb Hok) as [ys [-> _]]. simpl.
  rewrite (score_raise q tp Hp). reflexivity.
Qed.

Lemma main_reports_first_mismatch_witness :
  let db := Sample.mk_database
              [Sample.mk_catalog "Spring2024"
                 [Sample.e1; [F64.one; F64.zero]; [F64.one]]] in
  main (Document (artifact_of db)) (Ok Sample.e1) 5
  = (Error "shapes (3,) and (2,) not aligned: 3 (dim 0) != 2 (dim 0)", 1%Z).
Proof.
  intros db.
  apply (main_reports_first_mismatch db Sample.e1 5
           [Sample.mk_page 1 "Spring2024" Sample.e1]
           [Sample.mk_page 3 "Spring2024" [F64.one]]
           (Sample.mk_page 2 "Spring2024" [F64.one; F64.zero])).
  - reflexivity.
  - repeat constructor.
  - simpl. lia.
Defined.

(** ** The search on arbitrary JSON *)

Section SortMap.

Context {A B : Type}.
Variable f : A -> B.
Variable keyA : A -> float.
Variable keyB : B -> float.
Hypothesis key_f : forall x, keyB (f x) = keyA x.

Lemma insert_map (x : A) (l : list A) :
  insert keyB (f x) (map f l) = map f (insert keyA x l).
Proof.
  induction l as [|y l IH]; simpl; [reflexivity|].
  rewrite !key_f. destruct (F64.ltb (keyA x) (keyA y)); simpl;
    [reflexivity | rewrite IH; reflexivity].
Qed.

Lemma list_sort_reverse_map (l : list A) :
  list_sort_reverse keyB (map f l) = map f (list_sort_reverse keyA l).
Proof.
  unfold list_sort_reverse. rewrite !stable_sort_rev, map_rev. f_equal.
  induction l as [|x l IH]; simpl; [reflexivity|].
  rewrite IH. apply insert_map.
Qed.

End SortMap.

Lemma slice_to_map {A B : Type} (f : A -> B) (l : list A) (k : Z) :
  slice_to (map f l) k = map f (slice_to l k).
Proof.
  unfold slice_to. rewrite length_map.
  destruct (0 <=? k)%Z; apply firstn_map.
Qed.

Lemma for_each_map_bind {A B C D : Type}
  (g : A -> C) (f : B -> D) (body : A -> result B) (body' : C -> result D)
  (l : list A) :
  (forall x, In x l -> body' (g x) = (y <- body x ;; Ok (f y))) ->
  for_each body' (map g l) = (ys <- for_each body l ;; Ok (map f ys)).
Proof.
  induction l as [|x l IH]; intros H; simpl; [reflexivity|].
  rewrite (H x (or_introl eq_refl)).
  destruct (body x) as [y|]; simpl; [|reflexivity].
  rewrite IH by (intros x' Hx'; apply H; right; exact Hx').
  destruct (for_each body l); reflexivity.
Qed.

Lemma Forall2_In_l {A B : Type} (R : A -> B -> Prop) (l : list A) (l' : list B) (x : A) :
  Forall2 R l l' -> In x l -> exists y, In y l' /\ R x y.
Proof.
  induction 1 as [|x' y l l' Hxy _ IH]; simpl; [contradiction|].
  intros [<-|Hx].
  - exists y. split; [left; reflexivity | exact Hxy].
  - destruct (IH Hx) as [y' [Hin Hy']]. exists y'. split; [right|]; assumption.
Qed.

Lemma floats_of_map (v : vector) : floats_of (map JFloat v) = Some v.
Proof. induction v as [|x v IH]; simpl; [reflexivity | rewrite IH; reflexivity]. Qed.

Lemma type_error_schema (msg : string) :
  In msg type_error_messages -> schema_exn (TypeError msg) = true.
Proof.
  intros H. unfold schema_exn, TypeError. apply existsb_exists.
  exists msg. split; [exact H | apply String.eqb_refl].
Qed.

Lemma py_getitem_raise (v : json) (key : string) (e : exn) :
  py_getitem v key = Raise e -> schema_exn e = true.
Proof.
  destruct v; simpl; try (intros H; injection H as <-; reflexivity).
  destruct (dict_get key members); [discriminate|].
  intros H. injection H as <-. reflexivity.
Qed.

Lemma py_iter_raise (v : json) (e : exn) :
  py_iter v = Raise e -> schema_exn e = true.
Proof.
  destruct v; simpl; try discriminate; intros H; injection H as <-; reflexivity.
Qed.

Lemma cosine_similarity_raise (a b : vector) (e : exn) :
  cosine_similarity a b = Raise e -> schema_exn e = true.
Proof.
  unfold cosine_similarity, np_dot. destruct (Nat.eqb _ _); simpl; [discriminate|].
  intros H. injection H as <-. reflexivity.
Qed.

Lemma schema_exn_not_found (e : exn) :
  schema_exn e = true -> str e <> NOT_FOUND_MESSAGE.
Proof.
  destruct e as [key|n m|msg l c p|msg]; intros H.
  - unfold NOT_FOUND_MESSAGE. simpl. discriminate.
  - apply str_shapes_not_found.
  - apply str_json_not_found.
  - unfold schema_exn, type_error_messages in H. simpl in H.
    repeat (apply orb_true_iff in H; destruct H as [H|H]);
      try discriminate H;
      apply String.eqb_eq in H; subst msg; vm_compute; discriminate.
Qed.

Section RawSearchFacts.

Variable cosine_of_other : vector -> json -> result float.

Let score_raw := raw_score_page cosine_of_other.
Let scan_catalog_raw := raw_scan_catalog cosine_of_other.
Let scan_raw := raw_scan cosine_of_other.
Let main_raw := raw_main cosine_of_other.
Let from_numpy := from_numpy_raw cosine_of_other.

Lemma score_raw_raise (q : vector) (catalog_name catalog page : json) (e : exn) :
  score_raw q catalog_name catalog page = Raise e ->
  schema_exn e = true \/ from_numpy q e.
Proof.
  unfold score_raw, raw_score_page.
  destruct (py_getitem page "embedding") as [b|e0] eqn:Hb; simpl.
  2: { intros H. injection H as <-. left. apply (py_getitem_raise _ _ _ Hb). }
  unfold raw_cosine. destruct (as_floats b) as [v|] eqn:Hv.
  - destruct (cosine_similarity q v) as [s|e0] eqn:Hs; simpl.
    2: { intros H. injection H as <-. left. apply (cosine_similarity_raise _ _ _ Hs). }
    destruct (py_getitem page "page_number") as [n|e0] eqn:Hn; simpl.
    2: { intros H. injection H as <-. left. apply (py_getitem_raise _ _ _ Hn). }
    destruct (py_getitem page "image_path") as [ip|e0] eqn:Hip; simpl.
    2: { intros H. injection H as <-. left. apply (py_getitem_raise _ _ _ Hip). }
    destruct (py_getitem catalog "source_file") as [sf|e0] eqn:Hsf; simpl.
    2: { intros H. injection H as <-. left. apply (py_getitem_raise _ _ _ Hsf). }
    discriminate.
  - destruct (cosine_of_other q b) as [s|e0] eqn:Hs; simpl.
    2: { intros H. injection H as <-. right. exists b. split; assumption. }
    destruct (py_getitem page "page_number") as [n|e0] eqn:Hn; simpl.
    2: { intros H. injection H as <-. left. apply (py_getitem_raise _ _ _ Hn). }
    destruct (py_getitem page "image_path") as [ip|e0] eqn:Hip; simpl.
    2: { intros H. injection H as <-. left. apply (py_getitem_raise _ _ _ Hip). }
    destruct (py_getitem catalog "source_file") as [sf|e0] eqn:Hsf; simpl.
    2: { intros H. injection H as <-. left. apply (py_getitem_raise _ _ _ Hsf). }
    discriminate.
Qed.

Lemma scan_catalog_raw_raise (q : vector) (catalog : json) (e : exn) :
  scan_catalog_raw q catalog = Raise e ->
  schema_exn e = true \/ from_numpy q e.
Proof.
  unfold scan_catalog_raw, raw_scan_catalog.
  destruct (py_getitem catalog "name") as [n|e0] eqn:Hn; simpl.
  2: { intros H. injection H as <-. left. apply (py_getitem_raise _ _ _ Hn). }
  destruct (py_getitem catalog "pages") as [ps|e0] eqn:Hps; simpl.
  2: { intros H. injection H as <-. left. apply (py_getitem_raise _ _ _ Hps). }
  destruct (py_iter ps) as [pl|e0] eqn:Hpl; simpl.
  2: { intros H. injection H as <-. left. apply (py_iter_raise _ _ Hpl). }
  intros H. apply for_each_raise_inv in H. destruct H as [page [_ H]].
  apply (score_raw_raise q n catalog page e H).
Qed.

Lemma scan_raw_raise (q : vector) (db : json) (e : exn) :
  scan_raw q db = Raise e -> schema_exn e = true \/ from_numpy q e.
Proof.
  unfold scan_raw, raw_scan.
  destruct (py_getitem db "catalogs") as [cs|e0] eqn:Hcs; simpl.
  2: { intros H. injection H as <-. left. apply (py_getitem_raise _ _ _ Hcs). }
  destruct (py_iter cs) as [cl|e0] eqn:Hcl; simpl.
  2: { intros H. injection H as <-. left. apply (py_iter_raise _ _ Hcl). }
  destruct (for_each (raw_scan_catalog cosine_of_other q) cl) as [per|e0] eqn:Hper;
    simpl; [discriminate|].
  intros H. injection H as <-. apply for_each_raise_inv in Hper.
  destruct Hper as [catalog [_ H]]. apply (scan_catalog_raw_raise q catalog _ H).
Qed.

(** When the scan succeeds, every list of floats stored as an embedding has
    the length of the query. *)
Lemma scan_raw_ok_vectors (q : vector) (db : json) (results : list raw_match) :
  scan_raw q db = Ok results ->
  forall v, stored_vector db v -> List.length v = List.length q.
Proof.
  unfold scan_raw, raw_scan, stored_vector, raw_catalogs.
  destruct (py_getitem db "catalogs") as [cs|]; simpl; [|discriminate].
  destruct (py_iter cs) as [cl|]; simpl; [|discriminate].
  destruct (for_each (raw_scan_catalog cosine_of_other q) cl) as [per|] eqn:Hper;
    simpl; [|discriminate].
  intros _ v [catalog [page [Hc [Hp Hv]]]].
  apply for_each_inv in Hper.
  destruct (Forall2_In_l _ _ _ catalog Hper Hc) as [r [_ Hr]].
  unfold raw_scan_catalog in Hr. unfold raw_pages in Hp.
  destruct (py_getitem catalog "name") as [n|]; simpl in Hr; [|discriminate].
  destruct (py_getitem catalog "pages") as [ps|]; simpl in Hr, Hp; [|contradiction].
  destruct (py_iter ps) as [pl|]; simpl in Hr, Hp; [|contradiction].
  apply for_each_inv in Hr.
  destruct (Forall2_In_l _ _ _ page Hr Hp) as [m [_ Hm]].
  unfold raw_score_page in Hm. unfold raw_vector in Hv.
  destruct (py_getitem page "embedding") as [b|]; simpl in Hm; [|discriminate].
  unfold raw_cosine in Hm. rewrite Hv in Hm.
  unfold cosine_similarity, np_dot in Hm.
  destruct (Nat.eqb_spec (List.length q) (List.length v)); [congruence|].
  simpl in Hm. discriminate.
Qed.

Lemma score_raw_typed (q : vector) (c : catalog) (p : page) :
  score_raw q (JString (name c)) (json_of_catalog c) (json_of_page p)
  = (m <- score_page q c p ;; Ok (raw_of_match m)).
Proof.
  unfold score_raw, raw_score_page, score_page, json_of_page, json_of_catalog.
  cbn [py_getitem dict_get String.eqb Ascii.eqb Bool.eqb bind].
  unfold raw_cosine. cbn [as_floats]. rewrite floats_of_map.
  destruct (cosine_similarity q (embedding p)); reflexivity.
Qed.

Lemma scan_catalog_raw_typed (q : vector) (c : catalog) :
  scan_catalog_raw q (json_of_catalog c)
  = (ms <- for_each (score_page q c) (pages c) ;; Ok (map raw_of_match ms)).
Proof.
  unfold scan_catalog_raw, raw_scan_catalog.
  change (py_getitem (json_of_catalog c) "name") with (@Ok json (JString (name c))).
  change (py_getitem (json_of_catalog c) "pages")
    with (@Ok json (JArray (map json_of_page (pages c)))).
  cbn [bind py_iter].
  apply (for_each_map_bind json_of_page raw_of_match).
  intros p _. apply score_raw_typed.
Qed.

(** On a document whose [catalogs] are complete records the scan is the scan
    of the records. *)
Lemma scan_raw_typed (q : vector) (members : list (string * json)) (cats : list catalog) :
  dict_get "catalogs" members = Some (json_of_catalogs cats) ->
  scan_raw q (JObject members)
  = (ms <- scan q cats ;; Ok (map raw_of_match ms)).
Proof.
  intros H. unfold scan_raw, raw_scan, scan. cbn [py_getitem]. rewrite H.
  unfold json_of_catalogs. cbn [bind py_iter].
  rewrite (for_each_map_bind json_of_catalog (map raw_of_match)
             (fun c => for_each (score_page q c) (pages c))).
  - destruct (for_each _ cats) as [per|]; simpl; [|reflexivity].
    rewrite concat_map. reflexivity.
  - intros c _. apply scan_catalog_raw_typed.
Qed.

Lemma main_raw_typed (q : vector) (k : Z) (members : list (string * json))
  (cats : list catalog) :
  dict_get "catalogs" members = Some (json_of_catalogs cats) ->
  main_raw (Raw_document (JObject members)) (Ok q) k
  = match scan q cats with
    | Ok results =>
        (Raw_success (List.length results)
           (map raw_of_match
              (slice_to (list_sort_reverse m_similarity results) k)), 0%Z)
    | Raise e => (Raw_error (str e), 1%Z)
    end.
Proof.
  intros H. unfold main_raw, raw_main, raw_search. cbn [bind raw_json_load].
  fold scan_raw. rewrite (scan_raw_typed q members cats H).
  destruct (scan q cats) as [results|]; simpl; [|reflexivity].
  rewrite length_map,
    (list_sort_reverse_map raw_of_match m_similarity r_similarity)
    by reflexivity.
  rewrite slice_to_map. reflexivity.
Qed.

Lemma main_raw_of_scan (q : vector) (k : Z) (db : json) :
  main_raw (Raw_document db) (Ok q) k
  = match scan_raw q db with
    | Ok results =>
        (Raw_success (List.length results)
           (slice_to (list_sort_reverse r_similarity results) k), 0%Z)
    | Raise e => (Raw_error (str e), 1%Z)
    end.
Proof.
  unfold main_raw, raw_main, raw_search. cbn [bind raw_json_load].
  fold scan_raw. destruct (scan_raw q db); reflexivity.
Qed.

(** The search on the typed artifact is the search on the JSON value that it
    stands for: what is proved of [main] holds of the program on every
    artifact whose catalog and page records are complete and well typed. *)
Lemma main_raw_refines (f : file) (query : result vector) (k : Z) :
  main_raw (raw_of_file f) query k
  = (raw_of_output (fst (main f query k)), snd (main f query k)).
Proof.
  destruct f as [|msg lineno colno pos|a]; [reflexivity| |].
  - destruct query; reflexivity.
  - destruct query as [q|e]; [|reflexivity].
    destruct a as [v m c [cats|]].
    + change (main_raw (Raw_document (json_of_artifact
                {| a_version := v; a_model := m; a_created := c;
                   a_catalogs := Some cats |})) (Ok q) k
              = (raw_of_output (fst (main (Document
                   {| a_version := v; a_model := m; a_created := c;
                      a_catalogs := Some cats |}) (Ok q) k)),
                 snd (main (Document
                   {| a_version := v; a_model := m; a_created := c;
                      a_catalogs := Some cats |}) (Ok q) k))).
      unfold json_of_artifact.
      rewrite (main_raw_typed q k _ cats)
        by (destruct v, m, c; reflexivity).
      unfold main, search, search_catalogs. simpl.
      destruct (scan q cats); reflexivity.
    + destruct v, m, c; reflexivity.
Qed.

End RawSearchFacts.

Lemma slice_to_nil {A : Type} (k : Z) : slice_to (@nil A) k = [].
Proof. unfold slice_to. destruct (0 <=? k)%Z; apply firstn_nil. Qed.

Section RawSearchClaims.

Variable cosine_of_other : vector -> json -> result float.

Let main_raw := raw_main cosine_of_other.
Let from_numpy := from_numpy_raw cosine_of_other.

(** C6, as the code has it.  The search validates nothing and reads only the
    key [catalogs].  It ends with an error document and status 1
    - on a text that is not JSON, with the decoder's message;
    - on an object without the key [catalogs], with the KeyError;
    - on a [catalogs] that is null, a boolean or a number, with the
      TypeError of the iteration, and on one that is a non-empty string or a
      non-empty object, with the TypeError of the subscript;
    - on any document in which two stored vectors have different lengths,
      and, when the catalog records are complete and a vector differs in
      length from the first one, with NumPy's shape error for every query.
    No failure prints the message of the missing database, unless NumPy
    raises that text on a value that is not a list of floats.  An empty
    string or an empty object as [catalogs] is searched with success, and the
    members other than [catalogs] are never read. *)
Theorem raw_search_failures (q : vector) (k : Z) :
  (forall msg lineno colno pos,
     main_raw (Raw_not_json msg lineno colno pos) (Ok q) k
     = (Raw_error (str (JSONDecodeError msg lineno colno pos)), 1%Z))
  /\ (forall members,
        dict_get "catalogs" members = None ->
        main_raw (Raw_document (JObject members)) (Ok q) k
        = (Raw_error (str (KeyError "catalogs")), 1%Z))
  /\ (forall members catalogs,
        dict_get "catalogs" members = Some catalogs ->
        main_raw (Raw_document (JObject members)) (Ok q) k
        = match catalogs with
          | JArray _ => main_raw (Raw_document (JObject members)) (Ok q) k
          | JString EmptyString | JObject [] => (Raw_success 0 [], 0%Z)
          | JString _ | JObject _ =>
              (Raw_error "string indices must be integers, not 'str'", 1%Z)
          | _ =>
              (Raw_error ("'" ++ type_name catalogs ++ "' object is not iterable"),
               1%Z)
          end)
  /\ (forall db v w,
        stored_vector db v -> stored_vector db w ->
        List.length v <> List.length w ->
        exists msg, main_raw (Raw_document db) (Ok q) k = (Raw_error msg, 1%Z))
  /\ (forall members cats D,
        dict_get "catalogs" members = Some (json_of_catalogs cats) ->
        db_dimension cats = Some D ->
        Exists (fun p => List.length (embedding p) <> D) (all_pages cats) ->
        exists n,
          n <> List.length q
          /\ main_raw (Raw_document (JObject members)) (Ok q) k
             = (Raw_error (str (ValueError_shapes (List.length q) n)), 1%Z))
  /\ (forall f msg status,
        f <> Raw_absent ->
        main_raw f (Ok q) k = (Raw_error msg, status) ->
        msg <> NOT_FOUND_MESSAGE
        \/ exists e, from_numpy q e /\ msg = str e)
  /\ (forall members members',
        dict_get "catalogs" members' = dict_get "catalogs" members ->
        main_raw (Raw_document (JObject members')) (Ok q) k
        = main_raw (Raw_document (JObject members)) (Ok q) k).
Proof.
  split; [reflexivity|].
  split.
  { intros members H. unfold main_raw.
    rewrite main_raw_of_scan. unfold raw_scan. cbn [py_getitem]. rewrite H.
    reflexivity. }
  split.
  { intros members catalogs H. unfold main_raw.
    destruct catalogs as [| b | n | x | s | items | ms]; try reflexivity;
      rewrite main_raw_of_scan; unfold raw_scan; cbn [py_getitem]; rewrite H;
      try reflexivity.
    - destruct s as [|c s]; cbn -[slice_to]; rewrite ?slice_to_nil; reflexivity.
    - destruct ms as [|[k0 v0] ms]; cbn -[slice_to]; rewrite ?slice_to_nil;
        reflexivity. }
  split.
  { intros db v w Hv Hw Hneq. unfold main_raw. rewrite main_raw_of_scan.
    destruct (raw_scan cosine_of_other q db) as [results|e] eqn:Hscan.
    - pose proof (scan_raw_ok_vectors cosine_of_other q db results Hscan) as H.
      rewrite (H v Hv), (H w Hw) in Hneq. contradiction.
    - eexists. reflexivity. }
  split.
  { intros members cats D Hcats HD Hex.
    assert (Hq : Exists (fun p => List.length (embedding p) <> List.length q)
                        (all_pages cats)).
    { destruct (Nat.eq_dec (List.length q) D) as [->|Hneq]; [exact Hex|].
      unfold db_dimension in HD. destruct (all_pages cats) as [|p l];
        [discriminate|].
      injection HD as <-. apply Exists_cons_hd. congruence. }
    destruct (scan_raise q cats Hq) as [n [Hn Hscan]].
    exists n. split; [exact Hn|]. unfold main_raw.
    rewrite (main_raw_typed cosine_of_other q k members cats Hcats), Hscan.
    reflexivity. }
  split.
  { intros f msg status Hf. unfold main_raw.
    destruct f as [|m l c p|db]; [contradiction| |].
    - intros H. injection H as <- _. left. apply str_json_not_found.
    - rewrite main_raw_of_scan.
      destruct (raw_scan cosine_of_other q db) as [results|e] eqn:Hscan;
        [discriminate|].
      intros H. injection H as <- _.
      destruct (scan_raw_raise cosine_of_other q db e Hscan) as [He|He].
      + left. apply schema_exn_not_found. exact He.
      + right. exists e. split; [exact He | reflexivity]. }
  intros members members' H. unfold main_raw.
  rewrite !main_raw_of_scan. unfold raw_scan. cbn [py_getitem]. rewrite H.
  reflexivity.
Qed.

(** X7.  [main] prints the success document, with status 0, only if the
    artifact decodes to a value with the key [catalogs] and every list of
    floats stored as an embedding has the length of the query.  For the
    artifact that the generator writes for a database this condition is also
    sufficient.  In every other case [main] prints an error document and
    exits with status 1. *)
Theorem raw_main_success (q : vector) (k : Z) :
  (forall db n res,
     main_raw (Raw_document db) (Ok q) k = (Raw_success n res, 0%Z) ->
     (exists catalogs, py_getitem db "catalogs" = Ok catalogs)
     /\ (forall v, stored_vector db v -> List.length v = List.length q))
  /\ (forall d,
        (exists n res,
           main_raw (Raw_document (json_of_database d)) (Ok q) k
           = (Raw_success n res, 0%Z))
        <-> dimension_is (List.length q) (catalogs d))
  /\ (forall f,
        (exists n res, main_raw f (Ok q) k = (Raw_success n res, 0%Z))
        \/ (exists msg, main_raw f (Ok q) k = (Raw_error msg, 1%Z))).
Proof.
  split; [|split].
  - intros db n res. unfold main_raw. rewrite main_raw_of_scan.
    destruct (raw_scan cosine_of_other q db) as [results|e] eqn:Hscan;
      [|discriminate].
    intros _. split.
    + unfold raw_scan in Hscan.
      destruct (py_getitem db "catalogs") as [cs|]; [|discriminate].
      exists cs. reflexivity.
    + apply (scan_raw_ok_vectors cosine_of_other q db results Hscan).
  - intros d. unfold main_raw, json_of_database.
    rewrite (main_raw_typed cosine_of_other q k
               [("version", JString (version d)); ("model", JString (model d));
                ("created", JString (created d));
                ("catalogs", json_of_catalogs (catalogs d))]
               (catalogs d) eq_refl).
    destruct (scan q (catalogs d)) as [results|e] eqn:Hscan.
    + split; [|intros _; do 2 eexists; reflexivity].
      intros _. apply (scan_ok_dimension q _ results Hscan).
    + split; [intros [n [res H]]; discriminate|].
      intros Hdim. destruct (scan_ok q _ Hdim) as [results [Hok _]]. congruence.
  - intros [|m l c p|db]; unfold main_raw.
    + right. eexists. reflexivity.
    + right. eexists. reflexivity.
    + rewrite main_raw_of_scan.
      destruct (raw_scan cosine_of_other q db); [left; do 2 eexists | right; eexists];
        reflexivity.
Qed.

End RawSearchClaims.

(** C6, as the spec states it, fails: an artifact whose [version] is a number
    and which has no [model] is searched without any error, and so is an
    artifact whose [catalogs] is the empty object instead of a list.  A catalog
    without [source_file] fails with the KeyError, not with an error about
    the vector of another length that follows. *)
Lemma raw_search_counterexample :
  (exists x,
     raw_main Sample.cosine_of_other (Raw_document Sample.without_model)
       (Ok Sample.e1) 1
     = (Raw_success 3 [x], 0%Z)
     /\ r_catalog x = JString "Spring2024" /\ r_page_number x = JInt 1)
  /\ raw_main Sample.cosine_of_other (Raw_document Sample.catalogs_object)
       (Ok Sample.e1) 5
     = (Raw_success 0 [], 0%Z)
  /\ raw_main Sample.cosine_of_other (Raw_document Sample.without_source_file)
       (Ok Sample.e1) 5
     = (Raw_error "'source_file'", 1%Z).
Proof.
  split; [eexists; vm_compute; repeat split; reflexivity|].
  split; vm_compute; reflexivity.
Qed.

(** ** A failed document and the validity of the database *)





Section IngestionValidity.

Variable image : Type.
Variable convert_from_path : string -> result (list image).
Variable thumbnail : image -> result image.
Variable save_jpeg : image -> string -> result unit.
Variable encode : image -> result vector.
Variable makedirs : string -> result unit.

Let do_pages := process_pages image convert_from_path thumbnail save_jpeg encode.
Let run := ingest image convert_from_path thumbnail save_jpeg encode makedirs.
Let processed :=
  processed_catalogs image convert_from_path thumbnail save_jpeg encode.





End IngestionValidity.


